(** * Volatility-conditioned allocation back-test (vix-spy-average.py)

    A shallow embedding of the strategy simulator [implement_strategy], the
    performance metrics, the two objective functions and the optimisation
    driver in [main], followed by the properties established about them.

    Numbers.  The script computes with binary64 values.  Here a value is
    either an exact rational or NaN: the comparisons the simulator makes
    ([==], [>=]) are exact on binary64, and NaN is kept because
    [pct_change] produces it and [dropna] removes it.  Rounding and the
    infinities are outside the model. *)

From Stdlib Require Import QArith Qcanon.
From Stdlib Require Qcabs Lqa.
From Stdlib Require PrimFloat.
From stdpp Require Import base numbers list strings gmap.

Local Open Scope Qc_scope.

(** ** Numbers *)

Inductive float : Type :=
| Fin (q : Qc)
| NaN.

Global Instance float_eq_dec : EqDecision float.
Proof. solve_decision. Defined.

Definition of_Z (z : Z) : float := Fin (Qc_of_Z z).
Definition of_nat (n : nat) : float := of_Z (Z.of_nat n).

(** Decimal literal [n / d], as the source writes [0.01] or [35.99]. *)
Definition dec (n : Z) (d : positive) : float := Fin (Q2Qc (n # d)).

Definition fbin (op : Qc -> Qc -> Qc) (x y : float) : float :=
  match x, y with
  | Fin a, Fin b => Fin (op a b)
  | _, _ => NaN
  end.

Definition fadd : float -> float -> float := fbin Qcplus.
Definition fsub : float -> float -> float := fbin Qcminus.
Definition fmul : float -> float -> float := fbin Qcmult.
Definition fneg (x : float) : float :=
  match x with Fin a => Fin (- a) | NaN => NaN end.

(** [x / y]; a zero divisor gives a non-finite value in binary64, which
    the model renders as NaN. *)
Definition fdiv (x y : float) : float :=
  match x, y with
  | Fin a, Fin b => if decide (b = 0) then NaN else Fin (a / b)
  | _, _ => NaN
  end.

(** Comparisons are false as soon as one side is NaN. *)
Definition feqb (x y : float) : bool :=
  match x, y with
  | Fin a, Fin b => bool_decide (a = b)
  | _, _ => false
  end.

Definition fgeb (x y : float) : bool :=
  match x, y with
  | Fin a, Fin b => bool_decide (b ≤ a)
  | _, _ => false
  end.

Definition isna (x : float) : bool :=
  match x with NaN => true | Fin _ => false end.

(** ** Exceptions *)

Inductive exn : Type :=
| KeyError (key : string)
| IndexError
| IndexingError
| TypeError
| ZeroDivisionError.

Global Instance exn_eq_dec : EqDecision exn.
Proof. solve_decision. Defined.

Definition result (A : Type) : Type := exn + A.
Definition Ok {A} (a : A) : result A := inr a.
Definition Raise {A} (e : exn) : result A := inl e.

Definition rbind {A B} (r : result A) (k : A -> result B) : result B :=
  match r with
  | inl e => inl e
  | inr a => k a
  end.

(** ** The part of pandas the script uses *)

Record date : Type := Date { year : Z; month : Z; day : Z }.

Global Instance date_eq_dec : EqDecision date.
Proof. solve_decision. Defined.

Record Series (A : Type) : Type :=
  MkSeries { s_index : list date; s_values : list A }.
Arguments MkSeries {A} _ _.
Arguments s_index {A} _.
Arguments s_values {A} _.

Record DataFrame : Type :=
  MkFrame { index : list date; columns : gmap string (list float) }.


(** [df[c]] *)
Definition getitem (df : DataFrame) (c : string) : result (Series float) :=
  match columns df !! c with
  | Some v => Ok (MkSeries (index df) v)
  | None => Raise (KeyError c)
  end.

(** [df[c] = x] for a scalar [x] *)
Definition setitem_scalar (c : string) (x : float) (df : DataFrame) : DataFrame :=
  MkFrame (index df) (<[c := replicate (length (index df)) x]> (columns df)).

(** Label lookup of one date in a series. *)
Fixpoint label_lookup {A} (d : date) (idx : list date) (vs : list A) : option A :=
  match idx, vs with
  | d' :: idx', v :: vs' => if decide (d' = d) then Some v else label_lookup d idx' vs'
  | _, _ => None
  end.

(** [s.reindex(idx)], a missing label giving NaN. *)
Definition reindex (idx : list date) (s : Series float) : list float :=
  map (λ d, default NaN (label_lookup d (s_index s) (s_values s))) idx.

(** [df[c] = s] for a series [s]: aligned on the frame's index. *)
Definition setitem_series (c : string) (s : Series float) (df : DataFrame) : DataFrame :=
  MkFrame (index df)
    (<[c := if decide (s_index s = index df) then s_values s
            else reindex (index df) s]> (columns df)).

(** [s == i] and [s >= i] against an integer. *)
Definition series_eq (s : Series float) (i : nat) : Series bool :=
  MkSeries (s_index s) (map (λ v, feqb v (of_nat i)) (s_values s)).
Definition series_ge (s : Series float) (i : nat) : Series bool :=
  MkSeries (s_index s) (map (λ v, fgeb v (of_nat i)) (s_values s)).

(** Element-wise arithmetic of two series; both operands of the script
    come from the same frame, so they carry the same index. *)
Definition series_mul (a b : Series float) : Series float :=
  MkSeries (s_index a) (zip_with fmul (s_values a) (s_values b)).
Definition series_sub (a b : Series float) : Series float :=
  MkSeries (s_index a) (zip_with fsub (s_values a) (s_values b)).

(** Every value a series holds under one date, in the order of the series:
    a date that the series repeats has several. *)
Fixpoint label_matches {A} (d : date) (idx : list date) (vs : list A) : list A :=
  match idx, vs with
  | d' :: idx', v :: vs' =>
      if decide (d' = d) then v :: label_matches d idx' vs' else label_matches d idx' vs'
  | _, _ => []
  end.

(** pandas' [check_bool_indexer]: a boolean series used inside [.loc] is
    taken as it is when it carries the frame's index; otherwise it is
    looked up by label ([get_indexer_for] and [take]): every entry of the
    series under a date of the frame is taken, so a date that the series
    repeats yields several entries, and a date of the frame that the series
    lacks raises IndexingError ("Unalignable boolean Series provided as
    indexer"). *)
Fixpoint align_mask (idx : list date) (key : Series bool) : result (list bool) :=
  match idx with
  | [] => Ok []
  | d :: idx' =>
      match label_matches d (s_index key) (s_values key) with
      | [] => Raise IndexingError
      | bs => rbind (align_mask idx' key) (λ rest, Ok (bs ++ rest))
      end
  end.

Definition check_bool_indexer (idx : list date) (key : Series bool) : result (list bool) :=
  if decide (s_index key = idx) then Ok (s_values key) else align_mask idx key.

(** [df.loc[key, c] = x]: the rows selected by [key] receive [x].  The
    setter does not let the IndexingError of an unalignable mask through:
    it goes on to treat the key as labels and raises TypeError, the series
    being unhashable.  A mask that aligned to another number of entries
    than the frame has rows raises IndexError.  In both cases the frame is
    left as it was. *)
Definition loc_setitem (key : Series bool) (c : string) (x : float)
    (df : DataFrame) : result DataFrame :=
  match check_bool_indexer (index df) key with
  | inl IndexingError => Raise TypeError
  | inl e => Raise e
  | inr mask =>
      if decide (length mask = length (index df)) then
        let old := default (replicate (length (index df)) NaN) (columns df !! c) in
        Ok (MkFrame (index df)
              (<[c := zip_with (λ (m : bool) o, if m then x else o) mask old]> (columns df)))
      else Raise IndexError
  end.

(** [s.dropna()] *)
Fixpoint dropna_rows (idx : list date) (vs : list float) : list (date * float) :=
  match idx, vs with
  | d :: idx', v :: vs' =>
      if isna v then dropna_rows idx' vs' else (d, v) :: dropna_rows idx' vs'
  | _, _ => []
  end.

Definition dropna (s : Series float) : Series float :=
  let rows := dropna_rows (s_index s) (s_values s) in
  MkSeries (map fst rows) (map snd rows).

(** [(1 + s).prod()]: the product skips NaN. *)
Definition prod_skipna (vs : list float) : Qc :=
  foldl (λ acc v, match v with Fin q => acc * q | NaN => acc end) 1 vs.

Definition one_plus (vs : list float) : list float := map (fadd (of_Z 1)) vs.

(** ** In-place mutation of the frame under simulation

    [implement_strategy] writes into the frame it is given.  A computation
    therefore threads that frame as its state; when an exception is raised
    the state is the frame as it was left at that point. *)

Definition M (A : Type) : Type := DataFrame → result A * DataFrame.

Global Instance M_ret : MRet M := λ A a df, (Ok a, df).
Global Instance M_bind : MBind M := λ A B k m df,
  match m df with
  | (inl e, df') => (inl e, df')
  | (inr a, df') => k a df'
  end.

(** A statement that replaces the frame's contents. *)
Definition update (f : DataFrame → DataFrame) : M unit := λ df, (Ok tt, f df).
(** A statement that may raise instead; the frame is then left as it was. *)
Definition try_update (f : DataFrame → result DataFrame) : M unit := λ df,
  match f df with
  | inl e => (inl e, df)
  | inr df' => (Ok tt, df')
  end.
(** An expression that reads the frame. *)
Definition read {A} (f : DataFrame → result A) : M A := λ df, (f df, df).
(** An expression that does not touch the frame. *)
Definition lift {A} (r : result A) : M A := λ df, (r, df).

Fixpoint for_each {A} (l : list A) (body : A → M unit) : M unit :=
  match l with
  | [] => mret tt
  | a :: l' => body a ;; for_each l' body
  end.

(** ** Strategy simulator *)

(** [strategy[i]] on an array. *)
Definition strategy_at (strategy : list float) (i : nat) : result float :=
  match strategy !! i with
  | Some a => Ok a
  | None => Raise IndexError
  end.

(** [spy_df.loc[vix_df['Adj Close'] <cmp> i, c] = x] *)
Definition assign_where (vix_df : DataFrame)
    (cmp : Series float → nat → Series bool) (i : nat) (c : string) (x : float) : M unit :=
  try_update (λ spy_df,
    rbind (getitem vix_df "Adj Close") (λ adj, loc_setitem (cmp adj i) c x spy_df)).

Definition strategy_loop_body (vix_df : DataFrame) (strategy : list float) (i : nat) : M unit :=
  allocation ← lift (strategy_at strategy i);
  if decide (i = 36) then
    assign_where vix_df series_ge i "SPY Allocation" allocation ;;
    assign_where vix_df series_ge i "SH Allocation" (fsub (of_Z 1) allocation) ;;
    assign_where vix_df series_ge i "VIX Level" (of_nat i)
  else
    assign_where vix_df series_eq i "SPY Allocation" allocation ;;
    assign_where vix_df series_eq i "SH Allocation" (fsub (of_Z 1) allocation) ;;
    assign_where vix_df series_eq i "VIX Level" (of_nat i).

(** Lines 120-123: the default allocation and level. *)
Definition write_defaults : M unit :=
  update (setitem_scalar "SPY Allocation" (of_Z 1)) ;;
  update (setitem_scalar "SH Allocation" (of_Z 0)) ;;
  update (setitem_scalar "VIX Level" (of_Z 0)).

(** Line 136: the portfolio return of every row. *)
Definition write_portfolio_return : M unit :=
  daily ← read (λ df, getitem df "Daily Return");
  spy_alloc ← read (λ df, getitem df "SPY Allocation");
  daily' ← read (λ df, getitem df "Daily Return");
  sh_alloc ← read (λ df, getitem df "SH Allocation");
  update (setitem_series "Portfolio Return"
            (series_sub (series_mul daily spy_alloc) (series_mul daily' sh_alloc))).

(** The body of the function; the console line it prints first carries no
    data and is left out. *)
Definition implement_strategy_stmts (vix_df : DataFrame) (strategy : list float) : M unit :=
  write_defaults ;;
  for_each (seq 0 37) (strategy_loop_body vix_df strategy) ;;
  write_portfolio_return.

(** The outcome of the call together with the frame [spy_df] as the call
    leaves it; on a normal return that frame is the returned value. *)
Definition implement_strategy (spy_df vix_df : DataFrame) (strategy : list float)
    : result unit * DataFrame :=
  implement_strategy_stmts vix_df strategy spy_df.

(** ** Performance metrics *)

Definition finite_values (vs : list float) : list Qc :=
  omap (λ v, match v with Fin q => Some q | NaN => None end) vs.

Definition sum_Qc (xs : list Qc) : Qc := foldr Qcplus 0 xs.

(** [s.mean()]: NaN skipped, NaN when nothing is left. *)
Definition series_mean (vs : list float) : float :=
  let xs := finite_values vs in
  if decide (xs = []) then NaN
  else Fin (sum_Qc xs / Qc_of_Z (Z.of_nat (length xs))).

(** Calendar month of a date, counted from year 0. *)
Definition month_ordinal (d : date) : Z := year d * 12 + (month d - 1).

(** The rows of a series that fall in month [k], in index order. *)
Definition month_bin (s : Series float) (k : Z) : list float :=
  map snd (filter (λ r, month_ordinal r.1 = k) (zip (s_index s) (s_values s))).

(** [s.resample('M')]: one bin per calendar month from the earliest to the
    latest date of the index, months without rows included. *)
Definition resample_M (s : Series float) : list (list float) :=
  match map month_ordinal (s_index s) with
  | [] => []
  | m :: ms =>
      let lo := foldr Z.min m ms in
      let hi := foldr Z.max m ms in
      map (month_bin s) (seqZ lo (hi - lo + 1))
  end.

(** [lambda x: (1 + x).prod() - 1] *)
Definition compound (vs : list float) : float :=
  Fin (prod_skipna (one_plus vs) - 1).

Section Metrics.
(** [x ** y] and the square root are library functions on reals; the
    metrics are stated for any such functions. *)
Variable pow : Qc → Qc → float.
Variable sqrt : Qc → float.

(** [s.std()]: sample standard deviation (divisor [n - 1]), NaN skipped,
    NaN for fewer than two values. *)
Definition series_std (vs : list float) : float :=
  let xs := finite_values vs in
  let n := length xs in
  if decide (n ≤ 1)%nat then NaN
  else
    let mean := sum_Qc xs / Qc_of_Z (Z.of_nat n) in
    sqrt (sum_Qc (map (λ x, (x - mean) * (x - mean)) xs)
          / Qc_of_Z (Z.of_nat n - 1)).

Definition calculate_sharpe_ratio (returns : Series float) (risk_free_rate : float) : float :=
  let avg_return := series_mean (s_values returns) in
  let std_dev := series_std (s_values returns) in
  fdiv (fsub avg_return risk_free_rate) std_dev.

(** [1 / num_years] is a division of Python floats: it raises
    ZeroDivisionError for an empty series. *)
Definition calculate_annual_return (returns : Series float) : result float :=
  let cumulative_return := prod_skipna (one_plus (s_values returns)) in
  let num_years := Qc_of_Z (Z.of_nat (length (s_values returns))) / Qc_of_Z 252 in
  if decide (num_years = 0) then Raise ZeroDivisionError
  else Ok (fsub (pow cumulative_return (1 / num_years)) (of_Z 1)).

Definition calculate_monthly_volatility (returns : Series float) : float :=
  let monthly_returns := map compound (resample_M returns) in
  series_std monthly_returns.

(** ** Objective functions *)

(** [df.copy()]: a new frame object with the same contents. *)
Definition copy (df : DataFrame) : DataFrame := df.

Definition objective_function_annual_return
    (strategy : list float) (spy_df vix_df : DataFrame) : result float :=
  match implement_strategy (copy spy_df) vix_df strategy with
  | (inl e, _) => Raise e
  | (inr _, spy_df) =>
      rbind (getitem spy_df "Portfolio Return") (λ pr,
      rbind (calculate_annual_return (dropna pr)) (λ annual_return,
      Ok (fneg annual_return)))
  end.

Definition objective_function_monthly_volatility
    (strategy : list float) (spy_df vix_df : DataFrame) : result float :=
  match implement_strategy (copy spy_df) vix_df strategy with
  | (inl e, _) => Raise e
  | (inr _, spy_df) =>
      rbind (getitem spy_df "Portfolio Return") (λ pr,
      Ok (calculate_monthly_volatility (dropna pr)))
  end.
End Metrics.

(** ** Optimisation driver *)

(** The object [scipy.optimize.minimize] returns. *)
Module OptimizeResult.
Record t : Type := Make { x : list float; success : bool; message : string }.
End OptimizeResult.

(** What [main] writes to the console, the log and the disk. *)
Inductive event : Type :=
| Print (text : string)
| PrintFailed (text : string) (message : string)
| PrintAllocation (level : nat) (spy_allocation sh_allocation : float)
| PrintFrame (df : DataFrame)
| ToCsv (path : string) (df : DataFrame)
| LogInfo (text : string)
| PrintSharpe (sharpe_ratio : float)
| LogSharpe (sharpe_ratio : float).

(** A computation of [main]: what it has emitted so far and how it ended. *)
Definition W (A : Type) : Type := list event * result A.

Global Instance W_ret : MRet W := λ A a, ([], Ok a).
Global Instance W_bind : MBind W := λ A B k m,
  match m with
  | (out, inl e) => (out, inl e)
  | (out, inr a) => let '(out', r) := k a in (out ++ out', r)
  end.

Definition emit (e : event) : W unit := ([e], Ok tt).
Definition emit_all (es : list event) : W unit := (es, Ok tt).
Definition eval {A} (r : result A) : W A := ([], r).

(** [df[cs]] for a list of column names. *)
Fixpoint select_columns (df : DataFrame) (cs : list string)
    : result (gmap string (list float)) :=
  match cs with
  | [] => Ok ∅
  | c :: cs' =>
      rbind (getitem df c) (λ s,
      rbind (select_columns df cs') (λ m, Ok (<[c := s_values s]> m)))
  end.

(** [df.tail(n)] *)
Definition tail (n : nat) (df : DataFrame) : DataFrame :=
  let k := (length (index df) - n)%nat in
  MkFrame (drop k (index df)) (drop k <$> columns df).

(** [print(f"VIX Level {level}: SPY Allocation = ..., SH Allocation = ...")]
    for each entry of a table. *)
Definition print_allocations (strategy : list float) : list event :=
  imap (λ level allocation,
          PrintAllocation level allocation (fsub (of_Z 1) allocation)) strategy.

Section Driver.
Variable pow : Qc → Qc → float.
Variable sqrt : Qc → float.

(** [scipy.optimize.minimize(fun, x0, args, bounds=bounds, method='SLSQP')];
    an exception of the objective passes through it. *)
Variable minimize :
  (list float → result float) → list float → list (float * float)
  → result OptimizeResult.t.

(** [[(0.01, 0.99) for _ in range(len(initial_strategy))]] *)
Definition make_bounds (initial_strategy : list float) : list (float * float) :=
  map (λ _, (dec 1 100, dec 99 100)) (seq 0 (length initial_strategy)).

Definition risk_free_rate : float := dec 1 10000.

Definition optimize_annual_return
    (spy_df vix_df : DataFrame) (initial_strategy : list float)
    : result OptimizeResult.t :=
  minimize (λ strategy, objective_function_annual_return pow strategy spy_df vix_df)
    initial_strategy (make_bounds initial_strategy).

Definition optimize_monthly_volatility
    (spy_df vix_df : DataFrame) (initial_strategy : list float)
    : result OptimizeResult.t :=
  minimize (λ strategy, objective_function_monthly_volatility sqrt strategy spy_df vix_df)
    initial_strategy (make_bounds initial_strategy).

(** [implement_strategy(spy_df.copy(), vix_df, strategy)] as an
    expression of [main]. *)
Definition simulate (spy_df vix_df : DataFrame) (strategy : list float)
    : result DataFrame :=
  match implement_strategy (copy spy_df) vix_df strategy with
  | (inl e, _) => Raise e
  | (inr _, df) => Ok df
  end.

(** What follows the two optimisations once both have converged, up to
    the logging of the Sharpe ratio. *)
Definition report (spy_df vix_df : DataFrame)
    (optimal_strategy_annual optimal_strategy_monthly_volatility : list float)
    : W unit :=
  emit (Print "Optimal Strategy Allocations for Average Annual Return:") ;;
  emit_all (print_allocations optimal_strategy_annual) ;;
  emit (Print "Optimal Strategy Allocations for Monthly Volatility:") ;;
  emit_all (print_allocations optimal_strategy_monthly_volatility) ;;
  spy_df_annual ← eval (simulate spy_df vix_df optimal_strategy_annual);
  spy_df_monthly_volatility ←
    eval (simulate spy_df vix_df optimal_strategy_monthly_volatility);
  emit (Print "SPY Daily Returns for the past 30 days:") ;;
  shown ← eval (select_columns spy_df_annual
                  ["Adj Close"; "Daily Return"; "SPY Allocation";
                   "SH Allocation"; "Portfolio Return"]);
  emit (PrintFrame (tail 30 (MkFrame (index spy_df_annual) shown))) ;;
  emit (ToCsv "prepared_SPY_annual.csv" spy_df_annual) ;;
  emit (ToCsv "prepared_SPY_monthly_volatility.csv" spy_df_monthly_volatility) ;;
  emit (ToCsv "prepared_VIX.csv" vix_df) ;;
  emit (Print "Data update and preparation complete. Prepared data saved to CSV files.") ;;
  emit (LogInfo "Data update and preparation complete. Prepared data saved to CSV files.") ;;
  portfolio ← eval (getitem spy_df_annual "Portfolio Return");
  let sharpe_ratio := calculate_sharpe_ratio sqrt (dropna portfolio) risk_free_rate in
  emit (PrintSharpe sharpe_ratio) ;;
  emit (LogSharpe sharpe_ratio).

(** [main] from the point where [prepare_data] has delivered the two
    frames and the strategy file the initial table.  The charts drawn
    after the Sharpe ratio is logged are not part of the model. *)
Definition main (spy_df vix_df : DataFrame) (initial_strategy : list float) : W unit :=
  result_annual ← eval (optimize_annual_return spy_df vix_df initial_strategy);
  if negb (OptimizeResult.success result_annual) then
    emit (PrintFailed "Optimization for average annual return failed:"
            (OptimizeResult.message result_annual))
  else
    let optimal_strategy_annual := OptimizeResult.x result_annual in
    result_monthly_volatility ←
      eval (optimize_monthly_volatility spy_df vix_df initial_strategy);
    if negb (OptimizeResult.success result_monthly_volatility) then
      emit (PrintFailed "Optimization for monthly volatility failed:"
              (OptimizeResult.message result_monthly_volatility))
    else
      let optimal_strategy_monthly_volatility :=
        OptimizeResult.x result_monthly_volatility in
      report spy_df vix_df optimal_strategy_annual optimal_strategy_monthly_volatility.
End Driver.

(** ** Notions used in the statements *)

(** The condition iteration [i] puts on a reading. *)
Definition level_test (i : nat) (v : float) : bool :=
  if decide (i = 36) then fgeb v (of_nat i) else feqb v (of_nat i).

(** The value a cell holds after the iterations [levels], when iteration
    [i] writes [pick i] and the cell started as [init]. *)
Definition cell_after {A} (pick : nat → A) (levels : list nat) (init : A) (v : float) : A :=
  foldl (λ acc i, if level_test i v then pick i else acc) init levels.

(** The readings of one date, when it has any. *)
Definition readings_of (adj : Series float) (d : date) : option (list float) :=
  match label_matches d (s_index adj) (s_values adj) with
  | [] => None
  | rs => Some rs
  end.

(** The volatility readings in the order of the rows of the frame: taken
    position by position when the two frames carry the same index, by date
    otherwise, every reading of a date being taken; undefined when a date of
    the frame has no reading. *)
Definition seen_readings (idx : list date) (adj : Series float) : option (list float) :=
  if decide (s_index adj = idx) then Some (s_values adj)
  else @concat float <$> mapM (readings_of adj) idx.

(** The columns of a frame with the three columns of the loop replaced. *)
Definition with_allocations (A H L : list float)
    (cols : gmap string (list float)) : gmap string (list float) :=
  <["VIX Level" := L]> (<["SH Allocation" := H]> (<["SPY Allocation" := A]> cols)).

(** The value iteration [i] writes into each of the three columns. *)
Definition alloc_pick (strategy : list float) (i : nat) : float :=
  default NaN (strategy !! i).
Definition hedge_pick (strategy : list float) (i : nat) : float :=
  fsub (of_Z 1) (alloc_pick strategy i).
Definition level_pick (i : nat) : float := of_nat i.

(** The four columns a call writes, from the readings [rs] its rows see. *)
Definition spy_allocations (strategy rs : list float) : list float :=
  map (cell_after (alloc_pick strategy) (seq 0 37) (of_Z 1)) rs.
Definition sh_allocations (strategy rs : list float) : list float :=
  map (cell_after (hedge_pick strategy) (seq 0 37) (of_Z 0)) rs.
Definition vix_levels (rs : list float) : list float :=
  map (cell_after level_pick (seq 0 37) (of_Z 0)) rs.
Definition portfolio_returns (daily spy_alloc sh_alloc : list float) : list float :=
  zip_with fsub (zip_with fmul daily spy_alloc) (zip_with fmul daily sh_alloc).

(** The frame after a call that returns: four columns are (over)written,
    the index and every other column are as before. *)
Definition simulated (spy_df : DataFrame) (strategy daily rs : list float) : DataFrame :=
  MkFrame (index spy_df)
    (<["Portfolio Return" :=
         portfolio_returns daily (spy_allocations strategy rs) (sh_allocations strategy rs)]>
       (with_allocations (spy_allocations strategy rs) (sh_allocations strategy rs)
          (vix_levels rs) (columns spy_df))).

(** The frame after the three default columns are written. *)
Definition with_defaults (spy_df : DataFrame) : DataFrame :=
  setitem_scalar "VIX Level" (of_Z 0)
    (setitem_scalar "SH Allocation" (of_Z 0)
       (setitem_scalar "SPY Allocation" (of_Z 1) spy_df)).

(** [df[c].iloc[j]] *)
Definition cell (df : DataFrame) (c : string) (j : nat) : option float :=
  columns df !! c ≫= (λ col, col !! j).

(** The precondition of the simulator: the two frames carry the same
    dates in the same order, the returns and the readings are there, one
    per date, and the table has 37 entries. *)
Record well_formed (spy_df vix_df : DataFrame) (strategy : list float) : Prop :=
  { wf_index : index vix_df = index spy_df;
    wf_daily : ∃ daily, columns spy_df !! "Daily Return" = Some daily
                        ∧ length daily = length (index spy_df);
    wf_readings : ∃ adj, columns vix_df !! "Adj Close" = Some adj
                         ∧ length adj = length (index vix_df);
    wf_table : length strategy = 37%nat }.

(** [x < y] on numbers; false as soon as one side is NaN. *)
Definition flt (x y : float) : Prop :=
  match x, y with
  | Fin a, Fin b => a < b
  | _, _ => False
  end.

Module Scenario.
(** The three-day scenario: returns 0.01, -0.01, 0.02 under readings
    5, 40, 5, and a table with 1.0 at level 5 and 0.2 at level 36. *)
Definition days : list date := [Date 2024 1 2; Date 2024 1 3; Date 2024 1 4].
Definition table : list float :=
  <[36%nat := dec 2 10]> (<[5%nat := of_Z 1]> (replicate 37 (dec 5 10))).
Definition spy_df : DataFrame :=
  MkFrame days {[ "Daily Return" := [dec 1 100; dec (-1) 100; dec 2 100] ]}.
Definition vix_df : DataFrame :=
  MkFrame days {[ "Adj Close" := [of_Z 5; of_Z 40; of_Z 5] ]}.

(** Four days with the readings 35.99, 36.0, 500.0 and 12.0, and a fifth
    with 17.5. *)
Definition days5 : list date :=
  [Date 2024 1 2; Date 2024 1 3; Date 2024 1 4; Date 2024 1 5; Date 2024 1 8].
Definition spy_df5 : DataFrame :=
  MkFrame days5
    {[ "Daily Return" := [NaN; dec 1 100; dec (-1) 100; dec 2 100; dec 3 1000] ]}.
Definition vix_df5 : DataFrame :=
  MkFrame days5
    {[ "Adj Close" := [dec 3599 100; of_Z 36; of_Z 500; of_Z 12; dec 175 10] ]}.
End Scenario.

Module Misaligned.
(** Two days of returns against three days of readings: the volatility
    frame has one date more, ahead of the others. *)
Definition spy_df : DataFrame :=
  MkFrame [Date 2024 1 3; Date 2024 1 4]
    {[ "Daily Return" := [dec 1 100; dec (-1) 100] ]}.
Definition vix_df : DataFrame :=
  MkFrame [Date 2024 1 2; Date 2024 1 3; Date 2024 1 4]
    {[ "Adj Close" := [of_Z 40; of_Z 5; of_Z 5] ]}.


(** The three days of the scenario, the first of them read twice. *)
Definition vix_repeated : DataFrame :=
  MkFrame [Date 2024 1 2; Date 2024 1 2; Date 2024 1 3; Date 2024 1 4]
    {[ "Adj Close" := [of_Z 5; of_Z 5; of_Z 40; of_Z 5] ]}.
End Misaligned.

(** The columns a call writes. *)
Definition written_columns : list string :=
  ["SPY Allocation"; "SH Allocation"; "VIX Level"; "Portfolio Return"].

Module Instances.
(** Functions to evaluate the metrics with: the power is exact where the
    exponent is an integer, the square root where the fraction is a ratio
    of squares; elsewhere they give NaN. *)
Definition pow_on_integers (x y : Qc) : float :=
  match this y with
  | Qmake n 1 =>
      match n with
      | Z0 => Fin 1
      | Zpos p => Fin (x ^ Pos.to_nat p)
      | Zneg p => if decide (x = 0) then NaN else Fin (/ (x ^ Pos.to_nat p))
      end
  | _ => NaN
  end.

Definition sqrt_on_squares (x : Qc) : float :=
  let n := Qnum (this x) in
  let d := Z.pos (Qden (this x)) in
  if decide (Z.sqrt n * Z.sqrt n = n ∧ Z.sqrt d * Z.sqrt d = d)%Z
  then Fin (Q2Qc (Z.sqrt n # Z.to_pos (Z.sqrt d)))
  else NaN.

(** A year of 252 trading days, 21 to a month. *)
Definition year_2024 : list date :=
  map (λ n, Date 2024 (1 + Z.of_nat n / 21) (1 + Z.of_nat n `mod` 21)) (seq 0 252).

(** A solver that gives up at once. *)
Definition gives_up (f : list float → result float) (x0 : list float)
    (bounds : list (float * float)) : result OptimizeResult.t :=
  Ok (OptimizeResult.Make x0 false "Iteration limit reached").

(** A solver that moves the starting point into the box and stops. *)
Definition clip (x : float) (b : float * float) : float :=
  if fgeb x b.1 then (if fgeb b.2 x then x else b.2) else b.1.
Definition clips (f : list float → result float) (x0 : list float)
    (bounds : list (float * float)) : result OptimizeResult.t :=
  Ok (OptimizeResult.Make (zip_with clip x0 bounds) true
        "Optimization terminated successfully").

(** The returns frame of the scenario with its price column. *)
Definition spy_priced : DataFrame :=
  MkFrame Scenario.days
    (<["Adj Close" := [of_Z 470; dec 4653 10; dec 47461 100]]>
       (columns Scenario.spy_df)).
End Instances.

(** [x <= y] on numbers; false as soon as one side is NaN. *)
Definition fle (x y : float) : Prop :=
  match x, y with
  | Fin a, Fin b => a ≤ b
  | _, _ => False
  end.

(** A coordinate lies between its two bounds. *)
Definition in_box (v : float) (b : float * float) : Prop := fle b.1 v ∧ fle v b.2.

(** What a bounded minimiser promises: given a box of the dimension of
    the starting point, each lower bound at most the upper one, the point it
    returns lies in the box. *)
Definition respects_bounds
    (minimize : (list float → result float) → list float → list (float * float)
                → result OptimizeResult.t) : Prop :=
  ∀ f x0 bounds r,
    length bounds = length x0 →
    Forall (λ b, fle b.1 b.2) bounds →
    minimize f x0 bounds = Ok r →
    Forall2 in_box (OptimizeResult.x r) bounds.

(** Lines 129/133 and 136 on one row, on binary64 itself; used to tell
    which of the statements below depend on the absence of rounding. *)
Module Binary64.
Import PrimFloat.
Set Warnings "-inexact-float".
Definition sh_allocation (allocation : PrimFloat.float) : PrimFloat.float :=
  (1 - allocation)%float.
Definition portfolio_return
    (daily_return spy_allocation sh_allocation : PrimFloat.float) : PrimFloat.float :=
  (daily_return * spy_allocation - daily_return * sh_allocation)%float.
Definition pct_1 : PrimFloat.float := 0.01%float.
Definition pct_2 : PrimFloat.float := 0.02%float.
Definition pct_0_6 : PrimFloat.float := 0.006%float.
Definition pct_99 : PrimFloat.float := 0.99%float.
Definition one_tenth : PrimFloat.float := 0.1%float.
Definition three_tenths : PrimFloat.float := 0.3%float.
Definition one_fifth : PrimFloat.float := 0.2%float.
Definition one_half : PrimFloat.float := 0.5%float.
Definition zero : PrimFloat.float := 0%float.
Definition one : PrimFloat.float := 1%float.
Definition two : PrimFloat.float := 2%float.
Set Warnings "+inexact-float".
End Binary64.

(** The files a run has written, in order. *)
Definition csv_paths (es : list event) : list string :=
  omap (λ e, match e with ToCsv path _ => Some path | _ => None end) es.

(** ** Data preparation *)

(** [fillna(method='ffill')] on one column: a NaN takes the last value seen
    before it; a NaN with nothing before it stays. *)
Fixpoint ffill_from (last : float) (vs : list float) : list float :=
  match vs with
  | [] => []
  | v :: vs' =>
      let v' := if isna v then last else v in
      v' :: ffill_from v' vs'
  end.

Definition ffill (vs : list float) : list float := ffill_from NaN vs.

(** [df.fillna(method='ffill', inplace=True)] *)
Definition ffill_frame (df : DataFrame) : DataFrame :=
  MkFrame (index df) (ffill <$> columns df).

(** [s / s.shift(1) - 1] from the second row on. *)
Fixpoint pct_change_from (prev : float) (vs : list float) : list float :=
  match vs with
  | [] => []
  | v :: vs' => fsub (fdiv v prev) (of_Z 1) :: pct_change_from v vs'
  end.

(** [s.pct_change()]: the series is forward-filled first (the default
    [fill_method='pad'] of pandas up to 2.x), and the first row, which has no
    predecessor, is NaN. *)
Definition pct_change (vs : list float) : list float :=
  match ffill vs with
  | [] => []
  | v :: vs' => NaN :: pct_change_from v vs'
  end.

Definition calculate_daily_returns (df : DataFrame) (column : string) : result DataFrame :=
  rbind (getitem df column) (λ prices,
    Ok (setitem_series "Daily Return"
          (MkSeries (s_index prices) (pct_change (s_values prices))) df)).

(** The row index of an inner join: the dates of the left index that the
    right one has too.  This is what pandas returns for indexes in
    increasing order without repeated dates, as the price tables are. *)
Definition join_inner (left right : list date) : list date :=
  if decide (left = right) then left
  else filter (λ d, d ∈ right) left.

(** [df.reindex(idx)] *)
Definition reindex_frame (idx : list date) (df : DataFrame) : DataFrame :=
  if decide (index df = idx) then df
  else MkFrame idx ((λ col, reindex idx (MkSeries (index df) col)) <$> columns df).

(** [spy_df.align(vix_df, join='inner', axis=0)] *)
Definition align_inner (spy_df vix_df : DataFrame) : DataFrame * DataFrame :=
  let idx := join_inner (index spy_df) (index vix_df) in
  (reindex_frame idx spy_df, reindex_frame idx vix_df).

(** [prepare_data], from the two tables [load_data] has read. *)
Definition prepare_data (spy_loaded vix_loaded : DataFrame) : result (DataFrame * DataFrame) :=
  let '(spy_df, vix_df) := align_inner spy_loaded vix_loaded in
  let spy_df := ffill_frame spy_df in
  let vix_df := ffill_frame vix_df in
  rbind (calculate_daily_returns spy_df "Adj Close") (λ spy_df,
    Ok (spy_df, vix_df)).

(** ** Monthly returns *)

(** The calendar months [resample('M')] makes buckets for. *)
Definition month_range (s : Series float) : list Z :=
  match map month_ordinal (s_index s) with
  | [] => []
  | m :: ms =>
      let lo := foldr Z.min m ms in
      let hi := foldr Z.max m ms in
      seqZ lo (hi - lo + 1)
  end.

(** [calculate_monthly_returns]: the compounded return of every month, each
    with the month it belongs to. *)
Definition calculate_monthly_returns (df : DataFrame) : result (list (Z * float)) :=
  rbind (getitem df "Portfolio Return") (λ pr,
    Ok (map (λ k, (k, compound (month_bin pr k))) (month_range pr))).

(** ** Further notions used in the statements *)

(** Every column of a frame is as long as its index. *)
Definition frame_ok (df : DataFrame) : Prop :=
  ∀ c col, columns df !! c = Some col → length col = length (index df).



(** The files a run has written, with their contents. *)
Definition csv_files (es : list event) : list (string * DataFrame) :=
  omap (λ e, match e with ToCsv path df => Some (path, df) | _ => None end) es.

(** A value that is a number, and one that is a fraction of the portfolio. *)
Definition is_number (v : float) : Prop := ∃ q, v = Fin q.
Definition is_fraction (v : float) : Prop := fle (of_Z 0) v ∧ fle v (of_Z 1).

Module History.
(** The first day of a history: its return is NaN. *)
Definition first_day_spy : DataFrame :=
  MkFrame [Date 2024 1 2] {[ "Daily Return" := [NaN]%list ]}.
Definition first_day_vix : DataFrame :=
  MkFrame [Date 2024 1 2] {[ "Adj Close" := [dec 1320 100]%list ]}.

(** Two tables as [load_data] may deliver them: the volatility table lacks
    one date of the price table and has one of its own. *)
Definition spy_loaded : DataFrame :=
  MkFrame [Date 2024 1 2; Date 2024 1 3; Date 2024 1 4; Date 2024 1 5]
    {[ "Adj Close" := [of_Z 470; NaN; dec 4653 10; dec 47461 100] ]}.
Definition vix_loaded : DataFrame :=
  MkFrame [Date 2024 1 2; Date 2024 1 3; Date 2024 1 5; Date 2024 1 8]
    {[ "Adj Close" := [dec 1320 100; of_Z 14; dec 1335 100; of_Z 13] ]}.

(** Readings of which the first is missing. *)
Definition vix_gap : DataFrame :=
  MkFrame Scenario.days {[ "Adj Close" := [NaN; of_Z 40; of_Z 5] ]}.

(** A frame that carries portfolio returns over two months. *)
Definition two_months : DataFrame :=
  MkFrame [Date 2024 1 30; Date 2024 1 31; Date 2024 2 1; Date 2024 2 2]
    {[ "Portfolio Return" := [NaN; dec 1 100; dec (-2) 100; dec 3 100] ]}.

(** The table of the scenario with one entry too many, and with one
    changed entry at a level no reading of the scenario has. *)
Definition long_table : list float := Scenario.table ++ [dec 9 10]%list.
Definition other_table : list float := <[7%nat := dec 1 10]> Scenario.table.
End History.

(** * Properties *)

(** ** Numbers *)

Lemma of_nat_inj i k : of_nat i = of_nat k → i = k.
Proof.
  unfold of_nat, of_Z. intros H.
  assert (Qc_of_Z (Z.of_nat i) = Qc_of_Z (Z.of_nat k)) as E by congruence.
  apply Z2Qc_inj in E. lia.
Qed.

Lemma feqb_of_nat k i : feqb (of_nat k) (of_nat i) = bool_decide (k = i).
Proof.
  unfold feqb, of_nat, of_Z. apply bool_decide_ext.
  rewrite Z2Qc_inj_iff. lia.
Qed.

Lemma fgeb_of_nat k i : fgeb (of_nat k) (of_nat i) = bool_decide (i ≤ k)%nat.
Proof.
  unfold fgeb, of_nat, of_Z. apply bool_decide_ext.
  rewrite <- Z2Qc_inj_le. lia.
Qed.

Lemma feqb_true v w : feqb v w = true → v = w.
Proof.
  destruct v, w; simpl; try discriminate.
  intros H. apply bool_decide_eq_true in H. by subst.
Qed.

(** ** One cell of a column through the loop *)

Lemma cell_after_app {A} (pick : nat → A) l1 l2 init v :
  cell_after pick (l1 ++ l2) init v = cell_after pick l2 (cell_after pick l1 init v) v.
Proof. unfold cell_after. apply foldl_app. Qed.

Lemma cell_after_no_match {A} (pick : nat → A) l init v :
  (∀ i, i ∈ l → level_test i v = false) → cell_after pick l init v = init.
Proof.
  revert init. induction l as [|i l IH]; intros init H; [done|].
  unfold cell_after. simpl. rewrite (H i) by left.
  apply IH. intros j Hj. apply H. by right.
Qed.

Lemma level_test_lt i v : (i < 36)%nat → level_test i v = feqb v (of_nat i).
Proof. intros. unfold level_test. case_decide; [lia | done]. Qed.

Lemma level_test_36 v : level_test 36 v = fgeb v (of_nat 36).
Proof. done. Qed.

(** A reading at or above 36 ends with what iteration 36 wrote. *)
Lemma cell_after_ge_36 {A} (pick : nat → A) init v :
  fgeb v (of_nat 36) = true → cell_after pick (seq 0 37) init v = pick 36.
Proof.
  intros H. change 37%nat with (36 + 1)%nat. rewrite seq_app, cell_after_app.
  simpl. by rewrite level_test_36, H.
Qed.

(** A reading equal to an integer below 36 ends with what that iteration
    wrote. *)
Lemma cell_after_exact {A} (pick : nat → A) init k :
  (k < 36)%nat → cell_after pick (seq 0 37) init (of_nat k) = pick k.
Proof.
  intros Hk.
  replace 37%nat with (k + (1 + (36 - k)))%nat by lia.
  rewrite seq_app, cell_after_app, seq_app, cell_after_app.
  rewrite (cell_after_no_match pick (seq 0 k)).
  2:{ intros i Hi. apply elem_of_seq in Hi.
      rewrite level_test_lt, feqb_of_nat by lia.
      apply bool_decide_eq_false. lia. }
  unfold cell_after at 2. cbn [seq foldl].
  rewrite level_test_lt, feqb_of_nat, bool_decide_eq_true_2 by (lia || done).
  apply cell_after_no_match. intros i Hi. apply elem_of_seq in Hi.
  unfold level_test. case_decide.
  - rewrite fgeb_of_nat. apply bool_decide_eq_false. lia.
  - rewrite feqb_of_nat. apply bool_decide_eq_false. lia.
Qed.

(** A reading that no iteration matches keeps the initial value. *)
Lemma cell_after_unmatched {A} (pick : nat → A) init v :
  fgeb v (of_nat 36) = false →
  (∀ k, (k < 36)%nat → v ≠ of_nat k) →
  cell_after pick (seq 0 37) init v = init.
Proof.
  intros Hge Hne. apply cell_after_no_match. intros i Hi.
  apply elem_of_seq in Hi. destruct (decide (i = 36)) as [->|Hi36].
  - by rewrite level_test_36.
  - rewrite level_test_lt by lia.
    destruct (feqb v (of_nat i)) eqn:E; [|done].
    apply feqb_true in E. exfalso. apply (Hne i); [lia | done].
Qed.

(** ** The readings as the rows of the simulated frame see them *)

Lemma label_matches_map {A B} (f : A → B) d ix vs :
  label_matches d ix (map f vs) = map f (label_matches d ix vs).
Proof.
  revert vs. induction ix as [|d' ix IH]; intros [|v vs]; simpl; try done.
  case_decide; simpl; by rewrite IH.
Qed.

Lemma mapM_cons {A B} (f : A → option B) x l :
  mapM f (x :: l) = y ← f x; k ← mapM f l; mret (y :: k).
Proof. done. Qed.

Lemma readings_of_eq adj d :
  readings_of adj d
  = match label_matches d (s_index adj) (s_values adj) with
    | [] => None
    | rs => Some rs
    end.
Proof. done. Qed.

Lemma align_mask_map (f : float → bool) idx ix vs :
  align_mask idx (MkSeries ix (map f vs)) =
  match @concat float <$> mapM (readings_of (MkSeries ix vs)) idx with
  | Some rs => Ok (map f rs)
  | None => Raise IndexingError
  end.
Proof.
  induction idx as [|d idx IH]; [done|].
  cbn [align_mask s_index s_values]. rewrite mapM_cons, label_matches_map.
  rewrite readings_of_eq. cbn [s_index s_values].
  destruct (label_matches d ix vs) as [|r rs]; [done|].
  cbn [map]. rewrite IH. cbn [mbind option_bind].
  destruct (mapM _ idx) as [rss|]; simpl; [|done].
  unfold Ok. by rewrite map_app.
Qed.

Lemma check_bool_indexer_map (f : float → bool) idx ix vs :
  check_bool_indexer idx (MkSeries ix (map f vs)) =
  match seen_readings idx (MkSeries ix vs) with
  | Some rs => Ok (map f rs)
  | None => Raise IndexingError
  end.
Proof.
  unfold check_bool_indexer, seen_readings. simpl.
  case_decide; [done | apply align_mask_map].
Qed.









(** ** The loop on whole columns *)

Lemma with_allocations_twice A H L A' H' L' cols :
  with_allocations A' H' L' (with_allocations A H L cols)
  = with_allocations A' H' L' cols.
Proof.
  apply map_eq. intros c. unfold with_allocations.
  rewrite !lookup_insert. by repeat case_decide.
Qed.

Lemma with_allocations_id A H L cols :
  cols !! "SPY Allocation" = Some A → cols !! "SH Allocation" = Some H →
  cols !! "VIX Level" = Some L → with_allocations A H L cols = cols.
Proof.
  intros HA HH HL. apply map_eq. intros c. unfold with_allocations.
  rewrite !lookup_insert. repeat case_decide; by subst.
Qed.

Lemma zip_mask_map (f : float → bool) (g : float → float) x rs :
  zip_with (λ (m : bool) o, if m then x else o) (map f rs) (map g rs)
  = map (λ v, if f v then x else g v) rs.
Proof. induction rs as [|r rs IH]; simpl; [done | by rewrite IH]. Qed.

(** With the readings [rs] that the rows of a frame of index [idx] see,
    one for each row, every masked assignment of the loop succeeds and acts
    row by row. *)
Section Loop.
Context (vix_df : DataFrame) (strategy adj rs : list float) (idx : list date).
Hypothesis Hadj : columns vix_df !! "Adj Close" = Some adj.
Hypothesis Hseen : seen_readings idx (MkSeries (index vix_df) adj) = Some rs.
Hypothesis Hrows : length rs = length idx.

Lemma assign_where_level i c x g df :
  index df = idx → columns df !! c = Some (map g rs) →
  assign_where vix_df (if decide (i = 36) then series_ge else series_eq) i c x df
  = (Ok tt, MkFrame idx
             (<[c := map (λ v, if level_test i v then x else g v) rs]> (columns df))).
Proof.
  intros Hidx Hc. unfold assign_where, try_update, getitem. rewrite Hadj. simpl.
  unfold loc_setitem, level_test.
  case_decide; unfold series_ge, series_eq; cbn [s_index s_values];
    rewrite check_bool_indexer_map, Hidx, Hseen; unfold Ok;
    rewrite length_map, decide_True by done; simpl;
    by rewrite Hc, <- zip_mask_map.
Qed.

Lemma strategy_loop_body_level i a gA gH gL df :
  strategy !! i = Some a → index df = idx →
  columns df !! "SPY Allocation" = Some (map gA rs) →
  columns df !! "SH Allocation" = Some (map gH rs) →
  columns df !! "VIX Level" = Some (map gL rs) →
  strategy_loop_body vix_df strategy i df
  = (Ok tt, MkFrame idx
      (with_allocations
         (map (λ v, if level_test i v then a else gA v) rs)
         (map (λ v, if level_test i v then fsub (of_Z 1) a else gH v) rs)
         (map (λ v, if level_test i v then of_nat i else gL v) rs)
         (columns df))).
Proof.
  intros Hi Hidx HA HH HL.
  pose proof (assign_where_level i) as Hstep.
  unfold strategy_loop_body, strategy_at, lift, mbind, M_bind. rewrite Hi.
  unfold Ok in *.
  destruct (decide (i = 36)) as [Ei|Ei];
    (erewrite Hstep by done; cbv iota;
     erewrite Hstep; [| done | by simpl; rewrite lookup_insert_ne];
     cbv iota;
     erewrite Hstep; [| done | by simpl; rewrite !lookup_insert_ne];
     done).
Qed.

Lemma for_each_levels l : ∀ gA gH gL df,
  (∀ i, i ∈ l → is_Some (strategy !! i)) → index df = idx →
  columns df !! "SPY Allocation" = Some (map gA rs) →
  columns df !! "SH Allocation" = Some (map gH rs) →
  columns df !! "VIX Level" = Some (map gL rs) →
  for_each l (strategy_loop_body vix_df strategy) df
  = (Ok tt, MkFrame idx
      (with_allocations
         (map (λ v, cell_after (alloc_pick strategy) l (gA v) v) rs)
         (map (λ v, cell_after (hedge_pick strategy) l (gH v) v) rs)
         (map (λ v, cell_after level_pick l (gL v) v) rs)
         (columns df))).
Proof.
  induction l as [|i l IH]; intros gA gH gL df Hl Hidx HA HH HL.
  - destruct df as [ix cols]. simpl in *. subst ix.
    unfold mret, M_ret. do 2 f_equal. symmetry.
    apply (with_allocations_id _ _ _ _ HA HH HL).
  - destruct (Hl i) as [a Ha]; [left|].
    cbn [for_each]. unfold mbind, M_bind.
    erewrite strategy_loop_body_level by done. unfold Ok at 1. cbv iota.
    erewrite IH; cycle 1.
    + intros j Hj. apply Hl. by right.
    + done.
    + simpl. unfold with_allocations.
      rewrite !lookup_insert_ne by done. by rewrite lookup_insert_eq.
    + simpl. unfold with_allocations.
      rewrite lookup_insert_ne by done. by rewrite lookup_insert_eq.
    + simpl. unfold with_allocations. by rewrite lookup_insert_eq.
    + cbn [columns]. rewrite with_allocations_twice.
      assert (alloc_pick strategy i = a) as <-
        by (unfold alloc_pick; by rewrite Ha).
      reflexivity.
Qed.
End Loop.

(** ** What a call of the simulator leaves in the frame *)

Lemma replicate_as_map {A B} (x : B) (rs : list A) :
  replicate (length rs) x = map (λ _, x) rs.
Proof. induction rs; simpl; [done | by f_equal]. Qed.

Lemma M_bind_Ok {A B} (m : M A) (k : A → M B) df a df' :
  m df = (Ok a, df') → (m ≫= k) df = k a df'.
Proof. unfold mbind, M_bind. by intros ->. Qed.

Lemma M_bind_Raise {A B} (m : M A) (k : A → M B) df e df' :
  m df = (Raise e, df') → (m ≫= k) df = (Raise e, df').
Proof. unfold mbind, M_bind. by intros ->. Qed.

Lemma write_defaults_spec df : write_defaults df = (Ok tt, with_defaults df).
Proof. done. Qed.

Lemma write_portfolio_return_spec df daily A H :
  columns df !! "Daily Return" = Some daily →
  columns df !! "SPY Allocation" = Some A →
  columns df !! "SH Allocation" = Some H →
  write_portfolio_return df
  = (Ok tt, MkFrame (index df)
              (<["Portfolio Return" := portfolio_returns daily A H]> (columns df))).
Proof.
  intros Hd HA HH. unfold write_portfolio_return.
  assert (∀ c v, columns df !! c = Some v →
            read (λ df, getitem df c) df = (Ok (MkSeries (index df) v), df)) as Hread.
  { intros c v Hc. unfold read, getitem. by rewrite Hc. }
  erewrite M_bind_Ok by (by apply Hread).
  erewrite M_bind_Ok by (by apply Hread).
  erewrite M_bind_Ok by (by apply Hread).
  erewrite M_bind_Ok by (by apply Hread).
  unfold update, setitem_series, series_sub, series_mul. cbn [s_index s_values].
  by rewrite decide_True.
Qed.

Lemma implement_strategy_returns spy_df vix_df strategy adj rs daily :
  columns vix_df !! "Adj Close" = Some adj →
  seen_readings (index spy_df) (MkSeries (index vix_df) adj) = Some rs →
  length rs = length (index spy_df) →
  columns spy_df !! "Daily Return" = Some daily →
  (37 ≤ length strategy)%nat →
  implement_strategy spy_df vix_df strategy
  = (Ok tt, simulated spy_df strategy daily rs).
Proof.
  intros Hadj Hseen Hrs Hdaily Hs.
  unfold implement_strategy, implement_strategy_stmts.
  erewrite M_bind_Ok by apply write_defaults_spec.
  erewrite M_bind_Ok; cycle 1.
  { apply (for_each_levels vix_df strategy adj rs (index spy_df) Hadj Hseen Hrs
             (seq 0 37) (λ _, of_Z 1) (λ _, of_Z 0) (λ _, of_Z 0)).
    - intros i Hi. apply elem_of_seq in Hi. apply lookup_lt_is_Some. lia.
    - done.
    - simpl. rewrite !lookup_insert_ne by done.
      by rewrite lookup_insert_eq, <- Hrs, replicate_as_map.
    - simpl. rewrite lookup_insert_ne by done.
      by rewrite lookup_insert_eq, <- Hrs, replicate_as_map.
    - simpl. by rewrite lookup_insert_eq, <- Hrs, replicate_as_map. }
  erewrite write_portfolio_return_spec; cycle 1.
  - cbn [columns]. unfold with_allocations, with_defaults, setitem_scalar.
    cbn [columns]. rewrite !lookup_insert_ne by done. exact Hdaily.
  - cbn [columns]. unfold with_allocations.
    rewrite !lookup_insert_ne by done. by rewrite lookup_insert_eq.
  - cbn [columns]. unfold with_allocations.
    rewrite lookup_insert_ne by done. by rewrite lookup_insert_eq.
  - unfold simulated. cbn [index columns]. do 3 f_equal.
    apply (with_allocations_twice _ _ _ _ _ _ (columns spy_df)).
Qed.

(** A call whose first masked assignment raises stops there, when the
    default columns are already written. *)
Lemma implement_strategy_first_assignment spy_df vix_df strategy adj e :
  columns vix_df !! "Adj Close" = Some adj →
  (∀ x, loc_setitem (series_eq (MkSeries (index vix_df) adj) 0) "SPY Allocation"
          x (with_defaults spy_df) = Raise e) →
  strategy ≠ [] →
  implement_strategy spy_df vix_df strategy = (Raise e, with_defaults spy_df).
Proof.
  intros Hadj Hset Hs. destruct strategy as [|a strategy]; [done|].
  unfold implement_strategy, implement_strategy_stmts.
  erewrite M_bind_Ok by apply write_defaults_spec.
  apply M_bind_Raise. cbn [seq for_each].
  apply M_bind_Raise. unfold strategy_loop_body.
  erewrite M_bind_Ok by reflexivity.
  rewrite decide_False by done.
  apply M_bind_Raise.
  unfold assign_where, try_update, getitem. rewrite Hadj.
  cbn [rbind Ok]. by rewrite Hset.
Qed.


(** Readings that are not one for each row, a date of the frame being
    repeated among them, make it raise IndexError. *)
Lemma implement_strategy_repeated spy_df vix_df strategy adj rs :
  columns vix_df !! "Adj Close" = Some adj →
  seen_readings (index spy_df) (MkSeries (index vix_df) adj) = Some rs →
  length rs ≠ length (index spy_df) →
  strategy ≠ [] →
  implement_strategy spy_df vix_df strategy
  = (Raise IndexError, with_defaults spy_df).
Proof.
  intros Hadj Hseen Hrs Hs. eapply implement_strategy_first_assignment; try done.
  intros x. unfold loc_setitem, series_eq. cbn [s_index s_values].
  rewrite check_bool_indexer_map.
  change (index (with_defaults spy_df)) with (index spy_df).
  rewrite Hseen. unfold Ok. by rewrite length_map, decide_False.
Qed.

(** ** Rows of the simulated frame *)

Lemma well_formed_returns spy_df vix_df strategy :
  well_formed spy_df vix_df strategy →
  ∃ daily adj,
    columns spy_df !! "Daily Return" = Some daily
    ∧ columns vix_df !! "Adj Close" = Some adj
    ∧ length daily = length (index spy_df)
    ∧ length adj = length (index spy_df)
    ∧ implement_strategy spy_df vix_df strategy
      = (Ok tt, simulated spy_df strategy daily adj).
Proof.
  intros [Hidx (daily & Hd & Hdl) (adj & Ha & Hal) Hs].
  exists daily, adj. repeat split; try done; [congruence|].
  apply (implement_strategy_returns _ _ _ adj); [done | | congruence | done | lia].
  unfold seen_readings. cbn [s_index s_values]. by rewrite decide_True.
Qed.

Lemma cell_spy_allocation spy_df strategy daily rs j v :
  rs !! j = Some v →
  cell (simulated spy_df strategy daily rs) "SPY Allocation" j
  = Some (cell_after (alloc_pick strategy) (seq 0 37) (of_Z 1) v).
Proof.
  intros Hv. unfold cell, simulated, with_allocations, spy_allocations.
  cbn [columns]. rewrite !lookup_insert_ne by done. rewrite lookup_insert_eq.
  simpl. by rewrite list_lookup_fmap, Hv.
Qed.

Lemma cell_sh_allocation spy_df strategy daily rs j v :
  rs !! j = Some v →
  cell (simulated spy_df strategy daily rs) "SH Allocation" j
  = Some (cell_after (hedge_pick strategy) (seq 0 37) (of_Z 0) v).
Proof.
  intros Hv. unfold cell, simulated, with_allocations, sh_allocations.
  cbn [columns]. rewrite !lookup_insert_ne by done. rewrite lookup_insert_eq.
  simpl. by rewrite list_lookup_fmap, Hv.
Qed.

Lemma cell_vix_level spy_df strategy daily rs j v :
  rs !! j = Some v →
  cell (simulated spy_df strategy daily rs) "VIX Level" j
  = Some (cell_after level_pick (seq 0 37) (of_Z 0) v).
Proof.
  intros Hv. unfold cell, simulated, with_allocations, vix_levels.
  cbn [columns]. rewrite !lookup_insert_ne by done. rewrite lookup_insert_eq.
  simpl. by rewrite list_lookup_fmap, Hv.
Qed.

Lemma cell_portfolio_return spy_df strategy daily rs j v r :
  rs !! j = Some v → daily !! j = Some r →
  cell (simulated spy_df strategy daily rs) "Portfolio Return" j
  = Some (fsub (fmul r (cell_after (alloc_pick strategy) (seq 0 37) (of_Z 1) v))
               (fmul r (cell_after (hedge_pick strategy) (seq 0 37) (of_Z 0) v))).
Proof.
  intros Hv Hr. unfold cell, simulated, portfolio_returns.
  cbn [columns]. rewrite lookup_insert_eq. simpl.
  unfold spy_allocations, sh_allocations.
  rewrite !lookup_zip_with, Hr, !list_lookup_fmap, Hv. done.
Qed.

Lemma cell_daily_return spy_df strategy daily rs j :
  columns spy_df !! "Daily Return" = Some daily →
  cell (simulated spy_df strategy daily rs) "Daily Return" j = daily !! j.
Proof.
  intros Hd. unfold cell, simulated, with_allocations. cbn [columns].
  rewrite !lookup_insert_ne by done. by rewrite Hd.
Qed.

(** The hedge cell is the complement of the allocation cell, whatever the
    iterations did. *)
Lemma hedge_complement strategy l a h v :
  h = fsub (of_Z 1) a →
  cell_after (hedge_pick strategy) l h v
  = fsub (of_Z 1) (cell_after (alloc_pick strategy) l a v).
Proof.
  revert a h. induction l as [|i l IH]; intros a h E; [done|].
  unfold cell_after. cbn [foldl]. apply IH.
  destruct (level_test i v); done.
Qed.

Lemma default_complement : of_Z 0 = fsub (of_Z 1) (of_Z 1).
Proof. unfold of_Z, fsub, fbin. by rewrite <- Z2Qc_inj_sub. Qed.

Lemma flt_not_fgeb v w : flt v w → fgeb v w = false.
Proof.
  destruct v as [a|], w as [b|]; simpl; try done.
  intros H. apply bool_decide_eq_false. by apply Qclt_not_le.
Qed.

Lemma dec_not_integer n d k :
  Qden (Qred (n # d)) ≠ 1%positive → dec n d ≠ of_nat k.
Proof.
  unfold dec, of_nat, of_Z. intros Hd E. apply Hd.
  assert (this (Q2Qc (n # d)) = this (Qc_of_Z (Z.of_nat k))) as E' by congruence.
  simpl in E'. by rewrite E'.
Qed.

Lemma cell_Some_inv df c j v :
  cell df c j = Some v → ∃ col, columns df !! c = Some col ∧ col !! j = Some v.
Proof.
  unfold cell. destruct (columns df !! c) as [col|]; simpl; [|done]. eauto.
Qed.

Lemma Scenario_wf : well_formed Scenario.spy_df Scenario.vix_df Scenario.table.
Proof. split; [done | by eexists | by eexists | done]. Qed.

Lemma Scenario_wf5 : well_formed Scenario.spy_df5 Scenario.vix_df5 Scenario.table.
Proof. split; [done | by eexists | by eexists | done]. Qed.

(** ** C1: volatility level assignment *)

(** C1, as stated, fails: a reading of 35.99 is not given level 35.  On a
    day whose reading is 35.99 the simulator leaves the initial label 0. *)
Lemma level_of_35_99_is_not_35 :
  ∃ out, implement_strategy Scenario.spy_df5 Scenario.vix_df5 Scenario.table = (Ok tt, out)
         ∧ cell Scenario.vix_df5 "Adj Close" 0 = Some (dec 3599 100)
         ∧ cell out "VIX Level" 0 = Some (of_Z 0)
         ∧ cell out "VIX Level" 0 ≠ Some (of_Z 35).
Proof.
  eexists. split; [vm_compute; reflexivity|].
  split; [reflexivity|]. split; [reflexivity|]. vm_compute. discriminate.
Qed.

(** C1 (amended): on well-formed input, a day whose reading is at or above
    36 (36.0 and 500.0 among them) is given level 36; a day whose reading
    is exactly 12.0 is given level 12; a day whose reading is 35.99 matches
    no level and keeps the initial label 0. *)
Theorem level_assignment spy_df vix_df strategy j v :
  well_formed spy_df vix_df strategy →
  cell vix_df "Adj Close" j = Some v →
  ∃ out, implement_strategy spy_df vix_df strategy = (Ok tt, out)
    ∧ (fgeb v (of_Z 36) = true → cell out "VIX Level" j = Some (of_Z 36))
    ∧ (v = of_Z 36 ∨ v = of_Z 500 → cell out "VIX Level" j = Some (of_Z 36))
    ∧ (v = of_Z 12 → cell out "VIX Level" j = Some (of_Z 12))
    ∧ (v = dec 3599 100 → cell out "VIX Level" j = Some (of_Z 0)).
Proof.
  intros Hwf Hv.
  destruct (well_formed_returns _ _ _ Hwf) as (daily & adj & Hd & Ha & _ & _ & Hrun).
  apply cell_Some_inv in Hv as (col & Hcol & Hj).
  assert (col = adj) as -> by congruence.
  eexists. split; [exact Hrun|].
  rewrite (cell_vix_level _ _ _ _ _ _ Hj).
  assert (fgeb v (of_Z 36) = true → cell_after level_pick (seq 0 37) (of_Z 0) v = of_Z 36)
    as Hge by apply (cell_after_ge_36 level_pick).
  repeat split.
  - intros H. f_equal. by apply Hge.
  - intros [->| ->]; f_equal; by apply Hge.
  - intros ->. apply (f_equal Some).
    apply (cell_after_exact level_pick _ 12). lia.
  - intros ->. apply (f_equal Some). apply cell_after_unmatched; [done|].
    intros k _. apply dec_not_integer. by vm_compute.
Qed.

Lemma level_assignment_witness :
  ∃ out, implement_strategy Scenario.spy_df5 Scenario.vix_df5 Scenario.table = (Ok tt, out)
    ∧ cell out "VIX Level" 2 = Some (of_Z 36).
Proof.
  destruct (level_assignment Scenario.spy_df5 Scenario.vix_df5 Scenario.table
              2 (of_Z 500) Scenario_wf5 eq_refl) as (out & Hrun & Hge & _).
  exists out. split; [exact Hrun | apply Hge; reflexivity].
Defined.

(** ** C9: readings that match no level *)

(** C9: on well-formed input, a day whose reading is below 36 and equal to
    none of the integers 0..35 keeps the default allocation (1.0, 0.0) and
    the label 0, whatever the table holds; a day whose reading equals an
    integer [k] of 0..35 receives entry [k] of the table; and a label [k]
    of 1..35 is found only on days whose reading equals [k]. *)
Theorem unmatched_reading_keeps_default spy_df vix_df strategy j v :
  well_formed spy_df vix_df strategy →
  cell vix_df "Adj Close" j = Some v →
  ∃ out, implement_strategy spy_df vix_df strategy = (Ok tt, out)
    ∧ (flt v (of_Z 36) → (∀ k, (k < 36)%nat → v ≠ of_nat k) →
         cell out "SPY Allocation" j = Some (of_Z 1)
         ∧ cell out "SH Allocation" j = Some (of_Z 0)
         ∧ cell out "VIX Level" j = Some (of_Z 0))
    ∧ (∀ k a, (k < 36)%nat → v = of_nat k → strategy !! k = Some a →
         cell out "SPY Allocation" j = Some a
         ∧ cell out "SH Allocation" j = Some (fsub (of_Z 1) a)
         ∧ cell out "VIX Level" j = Some (of_nat k))
    ∧ (∀ k, (1 ≤ k < 36)%nat → cell out "VIX Level" j = Some (of_nat k) →
         v = of_nat k).
Proof.
  intros Hwf Hv.
  destruct (well_formed_returns _ _ _ Hwf) as (daily & adj & Hd & Ha & _ & _ & Hrun).
  apply cell_Some_inv in Hv as (col & Hcol & Hj).
  assert (col = adj) as -> by congruence.
  eexists. split; [exact Hrun|].
  rewrite (cell_vix_level _ _ _ _ _ _ Hj), (cell_spy_allocation _ _ _ _ _ _ Hj),
    (cell_sh_allocation _ _ _ _ _ _ Hj).
  repeat split.
  - f_equal. apply cell_after_unmatched; [by apply (flt_not_fgeb v (of_Z 36)) | done].
  - f_equal. apply cell_after_unmatched; [by apply (flt_not_fgeb v (of_Z 36)) | done].
  - f_equal. apply cell_after_unmatched; [by apply (flt_not_fgeb v (of_Z 36)) | done].
  - subst v. rewrite cell_after_exact by done. unfold alloc_pick. by rewrite H1.
  - subst v. rewrite cell_after_exact by done. unfold hedge_pick, alloc_pick.
    by rewrite H1.
  - subst v. by rewrite cell_after_exact.
  - intros k Hk Hlevel. apply (inj Some) in Hlevel.
    destruct (fgeb v (of_Z 36)) eqn:Hge.
    { rewrite (cell_after_ge_36 level_pick) in Hlevel by done.
      apply of_nat_inj in Hlevel. lia. }
    destruct (decide (Exists (λ i, v = of_nat i) (seq 0 36))) as [Hex|Hnex].
    + apply Exists_exists in Hex as (i & Hi & ->). apply elem_of_seq in Hi.
      rewrite cell_after_exact in Hlevel by lia.
      apply of_nat_inj in Hlevel. by subst.
    + rewrite cell_after_unmatched in Hlevel; [| done |].
      * apply (of_nat_inj 0) in Hlevel. lia.
      * intros i Hi ->. apply Hnex. apply Exists_exists. exists i.
        split; [apply elem_of_seq; lia | done].
Qed.

Lemma unmatched_reading_keeps_default_witness :
  ∃ out, implement_strategy Scenario.spy_df5 Scenario.vix_df5 Scenario.table = (Ok tt, out)
    ∧ cell out "SPY Allocation" 4 = Some (of_Z 1)
    ∧ cell out "SH Allocation" 4 = Some (of_Z 0)
    ∧ cell out "VIX Level" 4 = Some (of_Z 0).
Proof.
  destruct (unmatched_reading_keeps_default Scenario.spy_df5 Scenario.vix_df5
              Scenario.table 4 (dec 175 10) Scenario_wf5 eq_refl)
    as (out & Hrun & Hdefault & _).
  exists out. split; [exact Hrun|]. apply Hdefault.
  - reflexivity.
  - intros k _. apply dec_not_integer. by vm_compute.
Defined.

(** ** C4: the two allocations of a day *)

(** C4: on well-formed input the call returns, and on every day the hedge
    allocation is exactly 1 minus the risky allocation; a day left in the
    default branch holds (1, 0), which is no exception. *)
Theorem hedge_is_one_minus_risky spy_df vix_df strategy :
  well_formed spy_df vix_df strategy →
  ∃ out, implement_strategy spy_df vix_df strategy = (Ok tt, out)
    ∧ index out = index spy_df
    ∧ ∀ j, (j < length (index spy_df))%nat →
        ∃ a, cell out "SPY Allocation" j = Some a
             ∧ cell out "SH Allocation" j = Some (fsub (of_Z 1) a).
Proof.
  intros Hwf.
  destruct (well_formed_returns _ _ _ Hwf) as (daily & adj & Hd & Ha & _ & Hlen & Hrun).
  eexists. split; [exact Hrun|]. split; [done|].
  intros j Hj. rewrite <- Hlen in Hj.
  apply lookup_lt_is_Some in Hj as [v Hv].
  rewrite (cell_spy_allocation _ _ _ _ _ _ Hv), (cell_sh_allocation _ _ _ _ _ _ Hv).
  eexists. split; [done|]. f_equal.
  apply hedge_complement, default_complement.
Qed.

Lemma hedge_is_one_minus_risky_witness :
  ∃ out, implement_strategy Scenario.spy_df5 Scenario.vix_df5 Scenario.table = (Ok tt, out)
    ∧ index out = Scenario.days5
    ∧ ∀ j, (j < 5)%nat →
        ∃ a, cell out "SPY Allocation" j = Some a
             ∧ cell out "SH Allocation" j = Some (fsub (of_Z 1) a).
Proof.
  exact (hedge_is_one_minus_risky Scenario.spy_df5 Scenario.vix_df5 Scenario.table
           Scenario_wf5).
Defined.

(** ** C3 and C10: the portfolio return of a day *)

(** Over exact numbers the two products of a day combine into the return
    times the net exposure. *)
Lemma exposure_identity r a :
  fsub (fmul r a) (fmul r (fsub (of_Z 1) a))
  = fmul r (fsub (fmul (of_Z 2) a) (of_Z 1)).
Proof.
  destruct r as [r|], a as [a|]; simpl; try done.
  f_equal. rewrite Z2Qc_inj_1, Z2Qc_inj_2. ring.
Qed.

(** Two numbers are the same as soon as their fractions are equal. *)
Lemma Fin_eq (a b : Qc) : (this a == this b)%Q → Fin a = Fin b.
Proof. intros H. f_equal. by apply Qc_is_canon. Qed.

(** C3: on well-formed input, on every day the portfolio return is the
    day's return times the risky allocation minus the same return times the
    hedge allocation; with returns 0.01, -0.01, 0.02, readings 5, 40, 5 and
    a table holding 1.0 at level 5 and 0.2 at level 36, the portfolio
    returns are 0.01, 0.006, 0.02. *)
Theorem portfolio_return_formula spy_df vix_df strategy :
  well_formed spy_df vix_df strategy →
  ∃ out, implement_strategy spy_df vix_df strategy = (Ok tt, out)
    ∧ (∀ j, (j < length (index spy_df))%nat →
         ∃ r a h, cell out "Daily Return" j = Some r
                  ∧ cell out "SPY Allocation" j = Some a
                  ∧ cell out "SH Allocation" j = Some h
                  ∧ cell out "Portfolio Return" j = Some (fsub (fmul r a) (fmul r h)))
    ∧ (columns spy_df !! "Daily Return" = Some [dec 1 100; dec (-1) 100; dec 2 100] →
       columns vix_df !! "Adj Close" = Some [of_Z 5; of_Z 40; of_Z 5] →
       strategy !! 5%nat = Some (of_Z 1) →
       strategy !! 36%nat = Some (dec 2 10) →
       columns out !! "Portfolio Return" = Some [dec 1 100; dec 6 1000; dec 2 100]).
Proof.
  intros Hwf.
  destruct (well_formed_returns _ _ _ Hwf) as (daily & adj & Hd & Ha & Hdl & Hal & Hrun).
  eexists. split; [exact Hrun|]. split.
  - intros j Hj.
    assert (is_Some (adj !! j)) as [v Hv] by (apply lookup_lt_is_Some; lia).
    assert (is_Some (daily !! j)) as [r Hr] by (apply lookup_lt_is_Some; lia).
    eexists r, _, _.
    rewrite (cell_daily_return _ _ _ _ _ Hd), (cell_spy_allocation _ _ _ _ _ _ Hv),
      (cell_sh_allocation _ _ _ _ _ _ Hv), (cell_portfolio_return _ _ _ _ _ _ _ Hv Hr).
    done.
  - intros Hd' Ha' H5 H36.
    assert (daily = [dec 1 100; dec (-1) 100; dec 2 100]) as -> by congruence.
    assert (adj = [of_Z 5; of_Z 40; of_Z 5]) as -> by congruence.
    unfold simulated. cbn [columns]. rewrite lookup_insert_eq. f_equal.
    unfold portfolio_returns, spy_allocations, sh_allocations. cbn [map].
    rewrite !(hedge_complement strategy _ (of_Z 1) (of_Z 0)) by apply default_complement.
    change (of_Z 5) with (of_nat 5).
    rewrite (cell_after_exact (alloc_pick strategy) (of_Z 1) 5) by lia.
    rewrite (cell_after_ge_36 (alloc_pick strategy) (of_Z 1) (of_Z 40)) by done.
    unfold alloc_pick. rewrite H5, H36. cbn [default zip_with].
    repeat f_equal; by apply Fin_eq.
Qed.

Lemma portfolio_return_formula_witness :
  ∃ out, implement_strategy Scenario.spy_df Scenario.vix_df Scenario.table = (Ok tt, out)
    ∧ columns out !! "Portfolio Return" = Some [dec 1 100; dec 6 1000; dec 2 100].
Proof.
  destruct (portfolio_return_formula Scenario.spy_df Scenario.vix_df Scenario.table
              Scenario_wf) as (out & Hrun & _ & Hscenario).
  exists out. split; [exact Hrun|]. by apply Hscenario.
Defined.

(** C10, as stated, fails on the numbers the script computes with: on
    binary64, a return of 0.01 under an allocation of 0.99 gives
    0.01 * 0.99 - 0.01 * (1 - 0.99), which is not 0.01 * (2 * 0.99 - 1); the
    two differ in the last place. *)
Lemma net_exposure_differs_on_binary64 :
  let r := Binary64.pct_1 in
  let a := Binary64.pct_99 in
  PrimFloat.eqb
    (Binary64.portfolio_return r a (Binary64.sh_allocation a))
    (PrimFloat.mul r (PrimFloat.sub (PrimFloat.mul Binary64.two a) Binary64.one))
  = false.
Proof. vm_compute. reflexivity. Qed.

(** C10 (amended): on well-formed input, on every day the portfolio return
    is the day's return times the risky allocation minus the day's return
    times (1 - risky allocation); where the risky allocation is 1.0, the
    default included, it is the day's return itself, and where the risky
    allocation is 0.5 it is 0 for every day that has a return.  The form
    return * (2 * risky allocation - 1) is equal to it over exact numbers,
    and only there. *)
Theorem portfolio_return_net_exposure spy_df vix_df strategy :
  well_formed spy_df vix_df strategy →
  ∃ out, implement_strategy spy_df vix_df strategy = (Ok tt, out)
    ∧ (∀ j, (j < length (index spy_df))%nat →
         ∃ r a, cell out "Daily Return" j = Some r
                ∧ cell out "SPY Allocation" j = Some a
                ∧ cell out "Portfolio Return" j
                  = Some (fsub (fmul r a) (fmul r (fsub (of_Z 1) a)))
                ∧ (a = of_Z 1 → cell out "Portfolio Return" j = Some r)
                ∧ (a = dec 1 2 → ∀ q, r = Fin q →
                     cell out "Portfolio Return" j = Some (of_Z 0)))
    ∧ (∀ q b : Qc, q * b - q * (1 - b) = q * (2 * b - 1)).
Proof.
  intros Hwf.
  destruct (well_formed_returns _ _ _ Hwf) as (daily & adj & Hd & Ha & Hdl & Hal & Hrun).
  eexists. split; [exact Hrun|]. split; [|intros q b; ring].
  intros j Hj.
  assert (is_Some (adj !! j)) as [v Hv] by (apply lookup_lt_is_Some; lia).
  assert (is_Some (daily !! j)) as [r Hr] by (apply lookup_lt_is_Some; lia).
  eexists r, _.
  rewrite (cell_daily_return _ _ _ _ _ Hd), (cell_spy_allocation _ _ _ _ _ _ Hv),
    (cell_portfolio_return _ _ _ _ _ _ _ Hv Hr).
  rewrite (hedge_complement strategy _ (of_Z 1) (of_Z 0)) by apply default_complement.
  repeat split; try done.
  - intros ->. f_equal. destruct r as [r|]; [|done]. simpl. f_equal.
    rewrite Z2Qc_inj_1. ring.
  - intros -> q ->. f_equal. unfold of_Z, dec. simpl. f_equal.
    assert (Qc_of_Z 1 - Q2Qc (1 # 2) = Q2Qc (1 # 2)) as ->
      by (by apply Qc_is_canon).
    rewrite Z2Qc_inj_0. ring.
Qed.

(** The five-day scenario: the fourth day, its reading 12 and the table
    holding 0.5 there, has the portfolio return 0; the fifth, its reading
    17.5 at no level, keeps the default 1.0 and has its daily return. *)
Lemma portfolio_return_net_exposure_witness :
  ∃ out, implement_strategy Scenario.spy_df5 Scenario.vix_df5 Scenario.table = (Ok tt, out)
    ∧ cell out "SPY Allocation" 3 = Some (dec 5 10)
    ∧ cell out "Daily Return" 3 = Some (dec 2 100)
    ∧ cell out "Portfolio Return" 3 = Some (of_Z 0)
    ∧ cell out "SPY Allocation" 4 = Some (of_Z 1)
    ∧ cell out "Portfolio Return" 4 = cell out "Daily Return" 4.
Proof.
  destruct (portfolio_return_net_exposure Scenario.spy_df5 Scenario.vix_df5
              Scenario.table Scenario_wf5) as (out & Hrun & Hrows & _).
  exists out. split; [exact Hrun|].
  assert (out = (implement_strategy Scenario.spy_df5 Scenario.vix_df5 Scenario.table).2)
    as Hout by (by rewrite Hrun).
  assert (cell out "SPY Allocation" 3 = Some (dec 5 10)) as Ha3
    by (rewrite Hout; vm_compute; reflexivity).
  assert (cell out "Daily Return" 3 = Some (dec 2 100)) as Hr3
    by (rewrite Hout; vm_compute; reflexivity).
  assert (cell out "SPY Allocation" 4 = Some (of_Z 1)) as Ha4
    by (rewrite Hout; vm_compute; reflexivity).
  destruct (Hrows 3%nat) as (r3 & a3 & Hr & Ha & _ & _ & Hhalf); [simpl; lia|].
  destruct (Hrows 4%nat) as (r4 & a4 & Hr' & Ha' & _ & Hone & _); [simpl; lia|].
  rewrite Ha3 in Ha. rewrite Hr3 in Hr. rewrite Ha4 in Ha'.
  injection Ha as <-. injection Hr as <-. injection Ha' as <-.
  split; [exact Ha3|]. split; [exact Hr3|].
  split; [eapply Hhalf; [by apply Fin_eq | reflexivity]|].
  split; [exact Ha4|].
  rewrite Hr'. apply Hone. reflexivity.
Defined.

(** ** C2: series that are not aligned *)





(** Readings that repeat a date of the returns frame: the mask has an
    entry too many and the first masked assignment raises IndexError. *)
Lemma repeated_reading_raises_IndexError :
  implement_strategy Scenario.spy_df Misaligned.vix_repeated Scenario.table
  = (Raise IndexError, with_defaults Scenario.spy_df).
Proof.
  eapply (implement_strategy_repeated _ _ _ [of_Z 5; of_Z 5; of_Z 40; of_Z 5]
            [of_Z 5; of_Z 5; of_Z 40; of_Z 5]); try done.
Qed.

(** ** C8: determinism *)

Lemma simulated_twice spy_df strategy strategy' daily rs :
  simulated (simulated spy_df strategy' daily rs) strategy daily rs
  = simulated spy_df strategy daily rs.
Proof.
  unfold simulated. cbn [index columns]. f_equal.
  apply map_eq. intros c. unfold with_allocations.
  rewrite !lookup_insert. by repeat case_decide.
Qed.

Lemma simulated_written spy_df spy_df' strategy daily rs c :
  c ∈ written_columns →
  columns (simulated spy_df strategy daily rs) !! c
  = columns (simulated spy_df' strategy daily rs) !! c.
Proof.
  intros Hc. unfold written_columns in Hc.
  rewrite !elem_of_cons, elem_of_nil in Hc.
  unfold simulated, with_allocations. cbn [columns].
  destruct Hc as [->|[->|[->|[->|[]]]]];
    rewrite !lookup_insert; by repeat case_decide.
Qed.

(** C8: on well-formed input the outcome of the simulator and of the two
    objective functions is fixed by the dates, the returns, the readings
    and the table.  A second call on the frame the first call has written
    into leaves that frame as it is; a frame on which another table was
    simulated before gives the same frame; two frames with the same dates
    and returns give the same written columns; and both objective functions
    return the same value on all of them. *)
Theorem simulation_is_deterministic pow sqrt spy_df spy_df' vix_df strategy strategy' :
  well_formed spy_df vix_df strategy →
  well_formed spy_df vix_df strategy' →
  well_formed spy_df' vix_df strategy →
  index spy_df' = index spy_df →
  columns spy_df' !! "Daily Return" = columns spy_df !! "Daily Return" →
  ∃ out used out',
    implement_strategy spy_df vix_df strategy = (Ok tt, out)
    ∧ implement_strategy spy_df vix_df strategy' = (Ok tt, used)
    ∧ implement_strategy spy_df' vix_df strategy = (Ok tt, out')
    ∧ implement_strategy out vix_df strategy = (Ok tt, out)
    ∧ implement_strategy used vix_df strategy = (Ok tt, out)
    ∧ index out' = index out
    ∧ (∀ c, c ∈ written_columns → columns out' !! c = columns out !! c)
    ∧ objective_function_annual_return pow strategy used vix_df
      = objective_function_annual_return pow strategy spy_df vix_df
    ∧ objective_function_annual_return pow strategy spy_df' vix_df
      = objective_function_annual_return pow strategy spy_df vix_df
    ∧ objective_function_monthly_volatility sqrt strategy used vix_df
      = objective_function_monthly_volatility sqrt strategy spy_df vix_df
    ∧ objective_function_monthly_volatility sqrt strategy spy_df' vix_df
      = objective_function_monthly_volatility sqrt strategy spy_df vix_df.
Proof.
  intros Hwf Hwf' Hwf2 Hidx Hsame.
  destruct (well_formed_returns _ _ _ Hwf) as (daily & adj & Hd & Ha & Hdl & Hal & Hrun).
  destruct (well_formed_returns _ _ _ Hwf') as (daily' & adj' & Hd' & Ha' & _ & _ & Hrun').
  destruct (well_formed_returns _ _ _ Hwf2) as (daily2 & adj2 & Hd2 & Ha2 & _ & _ & Hrun2).
  assert (daily' = daily) as -> by congruence.
  assert (adj' = adj) as -> by congruence.
  assert (daily2 = daily) as -> by congruence.
  assert (adj2 = adj) as -> by congruence.
  assert (seen_readings (index spy_df) (MkSeries (index vix_df) adj) = Some adj) as Hseen.
  { unfold seen_readings. cbn [s_index s_values].
    by rewrite decide_True by apply (wf_index _ _ _ Hwf). }
  assert (∀ s', implement_strategy (simulated spy_df s' daily adj) vix_df strategy
                = (Ok tt, simulated spy_df strategy daily adj)) as Hagain.
  { intros s'. rewrite <- (simulated_twice spy_df strategy s' daily adj).
    apply (implement_strategy_returns _ _ _ adj); [done | exact Hseen | exact Hal | |].
    - unfold simulated, with_allocations. cbn [columns].
      by rewrite !lookup_insert_ne.
    - rewrite (wf_table _ _ _ Hwf). lia. }
  assert (simulated spy_df' strategy daily adj
          = MkFrame (index spy_df) (columns (simulated spy_df' strategy daily adj))) as Hout'.
  { unfold simulated. cbn [columns]. by rewrite Hidx. }
  exists (simulated spy_df strategy daily adj), (simulated spy_df strategy' daily adj),
    (simulated spy_df' strategy daily adj).
  assert (∀ df, getitem (simulated df strategy daily adj) "Portfolio Return"
                = Ok (MkSeries (index df)
                        (portfolio_returns daily (spy_allocations strategy adj)
                           (sh_allocations strategy adj)))) as Hpr.
  { intros df. unfold getitem, simulated. cbn [columns index].
    by rewrite lookup_insert_eq. }
  repeat split; try done.
  - by apply simulated_written.
  - unfold objective_function_annual_return, copy. by rewrite (Hagain strategy'), Hrun.
  - unfold objective_function_annual_return, copy.
    by rewrite Hrun2, Hrun, !Hpr, Hidx.
  - unfold objective_function_monthly_volatility, copy. by rewrite (Hagain strategy'), Hrun.
  - unfold objective_function_monthly_volatility, copy.
    by rewrite Hrun2, Hrun, !Hpr, Hidx.
Qed.

Lemma pow_on_integers_1 x : Instances.pow_on_integers x 1 = Fin x.
Proof. unfold Instances.pow_on_integers. simpl. f_equal. ring. Qed.

Lemma Scenario_wf_priced :
  well_formed Instances.spy_priced Scenario.vix_df Scenario.table.
Proof. split; [done | by eexists | by eexists | done]. Qed.

Lemma Scenario_wf_flat :
  well_formed Scenario.spy_df Scenario.vix_df (replicate 37 (dec 5 10)).
Proof. split; [done | by eexists | by eexists | done]. Qed.

Lemma simulation_is_deterministic_witness :
  ∃ out used out',
    implement_strategy Scenario.spy_df Scenario.vix_df Scenario.table = (Ok tt, out)
    ∧ implement_strategy Scenario.spy_df Scenario.vix_df (replicate 37 (dec 5 10))
      = (Ok tt, used)
    ∧ implement_strategy Instances.spy_priced Scenario.vix_df Scenario.table = (Ok tt, out')
    ∧ implement_strategy out Scenario.vix_df Scenario.table = (Ok tt, out)
    ∧ implement_strategy used Scenario.vix_df Scenario.table = (Ok tt, out)
    ∧ index out' = index out
    ∧ (∀ c, c ∈ written_columns → columns out' !! c = columns out !! c)
    ∧ objective_function_annual_return Instances.pow_on_integers
        Scenario.table used Scenario.vix_df
      = objective_function_annual_return Instances.pow_on_integers
          Scenario.table Scenario.spy_df Scenario.vix_df
    ∧ objective_function_annual_return Instances.pow_on_integers
        Scenario.table Instances.spy_priced Scenario.vix_df
      = objective_function_annual_return Instances.pow_on_integers
          Scenario.table Scenario.spy_df Scenario.vix_df
    ∧ objective_function_monthly_volatility Instances.sqrt_on_squares
        Scenario.table used Scenario.vix_df
      = objective_function_monthly_volatility Instances.sqrt_on_squares
          Scenario.table Scenario.spy_df Scenario.vix_df
    ∧ objective_function_monthly_volatility Instances.sqrt_on_squares
        Scenario.table Instances.spy_priced Scenario.vix_df
      = objective_function_monthly_volatility Instances.sqrt_on_squares
          Scenario.table Scenario.spy_df Scenario.vix_df.
Proof.
  exact (simulation_is_deterministic Instances.pow_on_integers Instances.sqrt_on_squares
           Scenario.spy_df Instances.spy_priced Scenario.vix_df
           Scenario.table (replicate 37 (dec 5 10))
           Scenario_wf Scenario_wf_flat Scenario_wf_priced eq_refl eq_refl).
Defined.

(** ** C5: a year of constant returns *)

Lemma prod_skipna_constant (r : Qc) n acc :
  foldl (λ acc v, match v with Fin q => acc * q | NaN => acc end) acc
    (one_plus (replicate n (Fin r)))
  = acc * (1 + r) ^ n.
Proof.
  revert acc. induction n as [|n IH]; intros acc; simpl.
  - ring.
  - rewrite IH. rewrite Z2Qc_inj_1. ring.
Qed.

Lemma one_year : Qc_of_Z (Z.of_nat 252) / Qc_of_Z 252 = 1.
Proof. by apply Qc_is_canon. Qed.

(** C5, as stated, fails: 252 days at 1% a day do not annualise to 1%,
    that is to (1 + 0.01)^1 - 1, but to 1.01^252 - 1. *)
Lemma annual_return_of_one_percent_a_day :
  calculate_annual_return Instances.pow_on_integers
    (MkSeries Instances.year_2024 (replicate 252 (dec 1 100)))
  ≠ Ok (fsub (Instances.pow_on_integers (1 + Q2Qc (1 # 100)) 1) (of_Z 1)).
Proof.
  pose (at_most_one := λ r : result float,
          match r with
          | inr (Fin q) => Qle_bool (this q) (1 # 1)
          | _ => true
          end).
  intros H.
  assert (at_most_one
            (calculate_annual_return Instances.pow_on_integers
               (MkSeries Instances.year_2024 (replicate 252 (dec 1 100))))
          = false) as E by (vm_compute; reflexivity).
  rewrite H in E. discriminate E.
Qed.

(** C5 (amended): for a constant daily return [r] over exactly 252 days
    the number of years is 1 and the annualised return is the compounded
    return of the year, (1 + r)^252 - 1. *)
Theorem annual_return_of_constant_year pow idx (r : Qc) :
  (∀ x, pow x 1 = Fin x) →
  length idx = 252%nat →
  calculate_annual_return pow (MkSeries idx (replicate 252 (Fin r)))
  = Ok (Fin ((1 + r) ^ 252 - 1)).
Proof.
  intros Hpow _. unfold calculate_annual_return. cbn [s_values].
  rewrite length_replicate, one_year.
  rewrite decide_False by done.
  unfold prod_skipna. rewrite prod_skipna_constant.
  replace (1 / 1) with (Q2Qc 1) by (by apply Qc_is_canon).
  rewrite Hpow. unfold fsub, fbin, of_Z. rewrite Z2Qc_inj_1.
  rewrite Qcmult_1_l. reflexivity.
Qed.

Lemma annual_return_of_constant_year_witness :
  calculate_annual_return Instances.pow_on_integers
    (MkSeries Instances.year_2024 (replicate 252 (Fin (Q2Qc (1 # 100)))))
  = Ok (Fin ((1 + Q2Qc (1 # 100)) ^ 252 - 1)).
Proof.
  apply (annual_return_of_constant_year Instances.pow_on_integers
           Instances.year_2024 (Q2Qc (1 # 100))).
  - exact pow_on_integers_1.
  - reflexivity.
Defined.

(** ** C6: the bounds of the optimisation *)

Lemma make_bounds_replicate initial_strategy :
  make_bounds initial_strategy
  = replicate (length initial_strategy) (dec 1 100, dec 99 100).
Proof.
  unfold make_bounds. generalize 0%nat.
  induction (length initial_strategy) as [|n IH]; intros k; simpl; [done|].
  by rewrite IH.
Qed.

Lemma Forall2_replicate_r {A B} (P : A → B → Prop) xs n b :
  Forall2 P xs (replicate n b) → length xs = n ∧ Forall (λ x, P x b) xs.
Proof.
  revert n. induction xs as [|x xs IH]; intros [|n] H; inversion H; subst.
  - done.
  - destruct (IH n) as [E ?]; [done|].
    split; [simpl; by rewrite E | by constructor].
Qed.

Lemma clips_respects_bounds : respects_bounds Instances.clips.
Proof.
  intros f x0 bounds r Hlen Hvalid [= <-]. simpl. clear f.
  revert x0 Hlen. induction Hvalid as [|[lo hi] bounds Hb Hvalid IH];
    intros [|x x0] Hlen; try discriminate; simpl; constructor.
  - unfold Instances.clip, in_box. simpl in *.
    destruct lo as [lo|], hi as [hi|]; try done.
    destruct (fgeb x (Fin lo)) eqn:E1.
    + destruct x as [x|]; [|done]. simpl in E1.
      apply bool_decide_eq_true in E1.
      destruct (fgeb (Fin hi) (Fin x)) eqn:E2.
      * apply bool_decide_eq_true in E2. by split.
      * split; [exact Hb | apply Qcle_refl].
    + split; [apply Qcle_refl | exact Hb].
  - apply IH. simpl in Hlen. lia.
Qed.

(** ** C6 and C7: the two optimisations of [main] *)

Section DriverProperties.
Context (pow : Qc → Qc → float) (sqrt : Qc → float).
Context (minimize : (list float → result float) → list float
                    → list (float * float) → result OptimizeResult.t).

(** C6: with a minimiser that keeps to the bounds it is given, every
    result of the two optimisations of [main] has as many entries as the
    initial table, each between 0.01 and 0.99, none 0 and none 1. *)
Theorem optimized_table_within_bounds spy_df vix_df initial_strategy r :
  respects_bounds minimize →
  optimize_annual_return pow minimize spy_df vix_df initial_strategy = Ok r
  ∨ optimize_monthly_volatility sqrt minimize spy_df vix_df initial_strategy = Ok r →
  length (OptimizeResult.x r) = length initial_strategy
  ∧ Forall (λ v, fle (dec 1 100) v ∧ fle v (dec 99 100)
                 ∧ v ≠ of_Z 0 ∧ v ≠ of_Z 1) (OptimizeResult.x r).
Proof.
  intros Hsolver Hrun.
  assert (Forall2 in_box (OptimizeResult.x r) (make_bounds initial_strategy)) as Hbox.
  { unfold optimize_annual_return, optimize_monthly_volatility in Hrun.
    assert (length (make_bounds initial_strategy) = length initial_strategy) as Hlen
      by (by rewrite make_bounds_replicate, length_replicate).
    assert (Forall (λ b : float * float, fle b.1 b.2) (make_bounds initial_strategy))
      as Hvalid.
    { rewrite make_bounds_replicate. apply Forall_replicate. by vm_compute. }
    destruct Hrun as [Hrun|Hrun]; by eapply Hsolver. }
  rewrite make_bounds_replicate in Hbox.
  apply Forall2_replicate_r in Hbox as [Hlen Hall]. split; [done|].
  eapply Forall_impl; [exact Hall|].
  intros v [Hlo Hhi]. simpl in Hlo, Hhi. repeat split; try done.
  - intros ->. revert Hlo. by vm_compute.
  - intros ->. revert Hhi. by vm_compute.
Qed.

(** C7: when the minimiser hands back a result that did not converge,
    for the annual return or, that one having converged, for the monthly
    volatility, [main] returns normally and the one thing it has emitted
    is the failure line with the solver's message: no table, no CSV file,
    no metric. *)
Theorem non_convergence_aborts spy_df vix_df initial_strategy r what :
  (optimize_annual_return pow minimize spy_df vix_df initial_strategy = Ok r
   ∧ OptimizeResult.success r = false
   ∧ what = "Optimization for average annual return failed:")
  ∨ (∃ r1, optimize_annual_return pow minimize spy_df vix_df initial_strategy = Ok r1
           ∧ OptimizeResult.success r1 = true
           ∧ optimize_monthly_volatility sqrt minimize spy_df vix_df initial_strategy
             = Ok r
           ∧ OptimizeResult.success r = false
           ∧ what = "Optimization for monthly volatility failed:") →
  main pow sqrt minimize spy_df vix_df initial_strategy
  = ([PrintFailed what (OptimizeResult.message r)], Ok tt).
Proof.
  unfold main, eval, emit, mbind, W_bind.
  intros [(H1 & H2 & ->)|(r1 & H1 & H2 & H3 & H4 & ->)].
  - rewrite H1. cbn [Ok]. by rewrite H2.
  - rewrite H1. cbn [Ok]. rewrite H2. cbn [negb].
    rewrite H3. cbn [Ok]. by rewrite H4.
Qed.
End DriverProperties.

Lemma optimized_table_within_bounds_witness :
  length (zip_with Instances.clip Scenario.table (make_bounds Scenario.table)) = 37%nat
  ∧ Forall (λ v, fle (dec 1 100) v ∧ fle v (dec 99 100) ∧ v ≠ of_Z 0 ∧ v ≠ of_Z 1)
      (zip_with Instances.clip Scenario.table (make_bounds Scenario.table)).
Proof.
  exact (optimized_table_within_bounds Instances.pow_on_integers Instances.sqrt_on_squares
           Instances.clips Scenario.spy_df Scenario.vix_df Scenario.table
           (OptimizeResult.Make
              (zip_with Instances.clip Scenario.table (make_bounds Scenario.table))
              true "Optimization terminated successfully")
           clips_respects_bounds (or_introl eq_refl)).
Defined.

Lemma non_convergence_aborts_witness :
  main Instances.pow_on_integers Instances.sqrt_on_squares Instances.gives_up
    Scenario.spy_df Scenario.vix_df Scenario.table
  = ([PrintFailed "Optimization for average annual return failed:"
        "Iteration limit reached"], Ok tt).
Proof.
  exact (non_convergence_aborts Instances.pow_on_integers Instances.sqrt_on_squares
           Instances.gives_up Scenario.spy_df Scenario.vix_df Scenario.table
           (OptimizeResult.Make Scenario.table false "Iteration limit reached")
           "Optimization for average annual return failed:"
           (or_introl (conj eq_refl (conj eq_refl eq_refl)))).
Defined.

(** A run in which both optimisations converge does write its three files;
    the early returns above are what keeps a failed run from doing so. *)
Lemma converged_run_writes_files :
  ∃ es, main Instances.pow_on_integers Instances.sqrt_on_squares Instances.clips
          Instances.spy_priced Scenario.vix_df Scenario.table = (es, Ok tt)
        ∧ csv_paths es = ["prepared_SPY_annual.csv";
                          "prepared_SPY_monthly_volatility.csv";
                          "prepared_VIX.csv"].
Proof. eexists. split; [vm_compute; reflexivity | reflexivity]. Qed.

(** ** Binary64 *)

(** The scenario of C3 gives the same three values on binary64, and the
    two special cases of C10 are exact there. *)
Lemma binary64_scenario :
  let row r a := Binary64.portfolio_return r a (Binary64.sh_allocation a) in
  PrimFloat.eqb (row Binary64.pct_1 Binary64.one) Binary64.pct_1 = true
  ∧ PrimFloat.eqb (row (PrimFloat.opp Binary64.pct_1) Binary64.one_fifth) Binary64.pct_0_6
    = true
  ∧ PrimFloat.eqb (row Binary64.pct_2 Binary64.one) Binary64.pct_2 = true
  ∧ PrimFloat.eqb (row Binary64.pct_2 Binary64.one_half) Binary64.zero = true.
Proof. repeat split; vm_compute; reflexivity. Qed.

(** The same at a return of 0.1 under an allocation of 0.3: on binary64 the
    two forms differ in the last place. *)
Lemma binary64_rounding :
  let r := Binary64.one_tenth in
  let a := Binary64.three_tenths in
  PrimFloat.eqb
    (Binary64.portfolio_return r a (Binary64.sh_allocation a))
    (PrimFloat.mul r (PrimFloat.sub (PrimFloat.mul Binary64.two a) Binary64.one))
  = false.
Proof. vm_compute. reflexivity. Qed.

(** * Further properties of the code *)

Import Qcabs Lqa.

(** ** The simulator at its edges *)

Lemma for_each_app {A} (l1 l2 : list A) (body : A → M unit) df :
  for_each (l1 ++ l2) body df
  = match for_each l1 body df with
    | (inl e, df') => (inl e, df')
    | (inr _, df') => for_each l2 body df'
    end.
Proof.
  revert df. induction l1 as [|a l1 IH]; intros df; [done|].
  cbn [app for_each]. unfold mbind, M_bind.
  destruct (body a df) as [[e|[]] df']; [done|]. apply IH.
Qed.

Lemma seen_readings_same_index idx adj :
  seen_readings idx (MkSeries idx adj) = Some adj.
Proof. unfold seen_readings. cbn [s_index s_values]. by rewrite decide_True. Qed.

(** The loop started on the default columns, run over the levels [l]. *)
Lemma for_each_from_defaults spy_df vix_df strategy adj l :
  index vix_df = index spy_df →
  columns vix_df !! "Adj Close" = Some adj →
  length adj = length (index vix_df) →
  (∀ i, i ∈ l → is_Some (strategy !! i)) →
  for_each l (strategy_loop_body vix_df strategy) (with_defaults spy_df)
  = (Ok tt,
     MkFrame (index spy_df)
       (with_allocations
          (map (cell_after (alloc_pick strategy) l (of_Z 1)) adj)
          (map (cell_after (hedge_pick strategy) l (of_Z 0)) adj)
          (map (cell_after level_pick l (of_Z 0)) adj)
          (columns spy_df))).
Proof.
  intros Hidx Hadj Hlen Hl.
  assert (length adj = length (index spy_df)) as Hn by congruence.
  erewrite (for_each_levels vix_df strategy adj adj (index spy_df) Hadj
              _ Hn l (λ _, of_Z 1) (λ _, of_Z 0) (λ _, of_Z 0)); try done.
  - cbn [columns]. do 2 f_equal.
    apply (with_allocations_twice _ _ _ _ _ _ (columns spy_df)).
  - simpl. rewrite !lookup_insert_ne by done.
    by rewrite lookup_insert_eq, <- Hn, replicate_as_map.
  - simpl. rewrite lookup_insert_ne by done.
    by rewrite lookup_insert_eq, <- Hn, replicate_as_map.
  - simpl. by rewrite lookup_insert_eq, <- Hn, replicate_as_map.
  Unshelve. rewrite Hidx. apply seen_readings_same_index.
Qed.

(** X1: with aligned frames and the readings present, a table of fewer than 37
    entries stops the call with IndexError at the iteration of its length:
    the levels below it are written into the frame, the portfolio return
    is not. *)
Theorem short_table_raises_IndexError spy_df vix_df strategy adj :
  index vix_df = index spy_df →
  columns vix_df !! "Adj Close" = Some adj →
  length adj = length (index vix_df) →
  (length strategy < 37)%nat →
  let k := length strategy in
  implement_strategy spy_df vix_df strategy
  = (Raise IndexError,
     MkFrame (index spy_df)
       (with_allocations
          (map (cell_after (alloc_pick strategy) (seq 0 k) (of_Z 1)) adj)
          (map (cell_after (hedge_pick strategy) (seq 0 k) (of_Z 0)) adj)
          (map (cell_after level_pick (seq 0 k) (of_Z 0)) adj)
          (columns spy_df))).
Proof.
  intros Hidx Hadj Hlen Hk k.
  unfold implement_strategy, implement_strategy_stmts.
  erewrite M_bind_Ok by apply write_defaults_spec.
  apply M_bind_Raise.
  replace 37%nat with (k + (37 - k))%nat by lia.
  rewrite seq_app, for_each_app.
  rewrite (for_each_from_defaults spy_df vix_df strategy adj (seq 0 k)); try done.
  2:{ intros i Hi. apply elem_of_seq in Hi. apply lookup_lt_is_Some. lia. }
  unfold Ok at 1. cbv iota.
  destruct (37 - k)%nat as [|n] eqn:E; [lia|].
  cbn [seq for_each]. apply M_bind_Raise.
  unfold strategy_loop_body. apply M_bind_Raise.
  unfold lift, strategy_at. simpl.
  by rewrite lookup_ge_None_2 by (unfold k; lia).
Qed.

(** X2: without the column of readings the call raises KeyError at the first
    masked assignment, the three default columns being written; an empty
    table raises IndexError before that. *)
Theorem missing_readings_column spy_df vix_df strategy :
  columns vix_df !! "Adj Close" = None →
  implement_strategy spy_df vix_df strategy
  = (Raise (if decide (strategy = []) then IndexError else KeyError "Adj Close"),
     with_defaults spy_df).
Proof.
  intros Hadj.
  unfold implement_strategy, implement_strategy_stmts.
  erewrite M_bind_Ok by apply write_defaults_spec.
  apply M_bind_Raise. cbn [seq for_each]. apply M_bind_Raise.
  unfold strategy_loop_body. destruct strategy as [|a strategy].
  - by apply M_bind_Raise.
  - erewrite M_bind_Ok by reflexivity.
    rewrite decide_False by done. rewrite (decide_False (P := a :: strategy = [])) by done.
    apply M_bind_Raise.
    unfold assign_where, try_update, getitem. by rewrite Hadj.
Qed.

(** X3: without the column of daily returns the call raises KeyError only at
    its last statement: the loop has run and the three columns are written. *)
Theorem missing_returns_column spy_df vix_df strategy adj :
  index vix_df = index spy_df →
  columns vix_df !! "Adj Close" = Some adj →
  length adj = length (index vix_df) →
  (37 ≤ length strategy)%nat →
  columns spy_df !! "Daily Return" = None →
  implement_strategy spy_df vix_df strategy
  = (Raise (KeyError "Daily Return"),
     MkFrame (index spy_df)
       (with_allocations (spy_allocations strategy adj) (sh_allocations strategy adj)
          (vix_levels adj) (columns spy_df))).
Proof.
  intros Hidx Hadj Hlen Hs Hd.
  unfold implement_strategy, implement_strategy_stmts.
  erewrite M_bind_Ok by apply write_defaults_spec.
  erewrite M_bind_Ok; cycle 1.
  { apply (for_each_from_defaults spy_df vix_df strategy adj (seq 0 37)); try done.
    intros i Hi. apply elem_of_seq in Hi. apply lookup_lt_is_Some. lia. }
  unfold write_portfolio_return. apply M_bind_Raise.
  unfold read, getitem. cbn [columns]. unfold with_allocations.
  rewrite !lookup_insert_ne by done. by rewrite Hd.
Qed.

(** X4: a call that returns leaves the index and every column other than the
    four it writes as they were, and the four it writes have one value per
    row. *)
Theorem simulation_keeps_the_rest spy_df vix_df strategy :
  well_formed spy_df vix_df strategy →
  ∃ out, implement_strategy spy_df vix_df strategy = (Ok tt, out)
    ∧ index out = index spy_df
    ∧ (∀ c, c ∉ written_columns → columns out !! c = columns spy_df !! c)
    ∧ (∀ c, c ∈ written_columns →
         ∃ col, columns out !! c = Some col ∧ length col = length (index spy_df)).
Proof.
  intros Hwf.
  destruct (well_formed_returns _ _ _ Hwf) as (daily & adj & Hd & Ha & Hdl & Hal & Hrun).
  eexists. split; [exact Hrun|]. split; [done|]. split.
  - intros c Hc. unfold written_columns in Hc.
    rewrite !not_elem_of_cons in Hc. destruct Hc as (? & ? & ? & ? & _).
    unfold simulated, with_allocations. cbn [columns].
    by rewrite !lookup_insert_ne.
  - intros c Hc. unfold written_columns in Hc.
    rewrite !elem_of_cons, elem_of_nil in Hc.
    unfold simulated, with_allocations. cbn [columns].
    destruct Hc as [->|[->|[->|[->|[]]]]].
    + rewrite !lookup_insert_ne by done. rewrite lookup_insert_eq.
      eexists. split; [done|]. unfold spy_allocations. by rewrite length_map.
    + rewrite !lookup_insert_ne by done. rewrite lookup_insert_eq.
      eexists. split; [done|]. unfold sh_allocations. by rewrite length_map.
    + rewrite !lookup_insert_ne by done. rewrite lookup_insert_eq.
      eexists. split; [done|]. unfold vix_levels. by rewrite length_map.
    + rewrite lookup_insert_eq.
      eexists. split; [done|].
      unfold portfolio_returns, spy_allocations, sh_allocations.
      rewrite !length_zip_with, !length_map. lia.
Qed.

Lemma cell_after_ext {A} (pick pick' : nat → A) l init v :
  (∀ i, i ∈ l → level_test i v = true → pick i = pick' i) →
  cell_after pick l init v = cell_after pick' l init v.
Proof.
  revert init. induction l as [|i l IH]; intros init H; [done|].
  unfold cell_after. cbn [foldl].
  destruct (level_test i v) eqn:E.
  - rewrite (H i) by (done || left). apply IH. intros j Hj. apply H. by right.
  - apply IH. intros j Hj. apply H. by right.
Qed.

Lemma cell_after_const {A} (pick : nat → A) l c v :
  (∀ i, i ∈ l → pick i = c) → cell_after pick l c v = c.
Proof.
  induction l as [|i l IH]; intros H; [done|].
  unfold cell_after. cbn [foldl].
  rewrite (H i) by left.
  destruct (level_test i v); apply IH; intros j Hj; apply H; by right.
Qed.

(** Which of the three cases a reading falls in. *)
Lemma reading_cases v :
  fgeb v (of_nat 36) = true
  ∨ (∃ k, (k < 36)%nat ∧ v = of_nat k)
  ∨ (fgeb v (of_nat 36) = false ∧ ∀ k, (k < 36)%nat → v ≠ of_nat k).
Proof.
  destruct (fgeb v (of_nat 36)) eqn:Hge; [by left|]. right.
  destruct (decide (Exists (λ i, v = of_nat i) (seq 0 36))) as [Hex|Hnex].
  - left. apply Exists_exists in Hex as (i & Hi & ->). apply elem_of_seq in Hi.
    exists i. split; [lia | done].
  - right. split; [done|]. intros i Hi ->. apply Hnex, Exists_exists.
    exists i. split; [apply elem_of_seq; lia | done].
Qed.

(** X5: on every row the label is an integer [k] of 0..36 and the risky
    allocation is entry [k] of the table, or the row is unmatched, with label
    0 and allocation 1.0. *)
Theorem level_and_allocation_agree spy_df vix_df strategy j :
  well_formed spy_df vix_df strategy →
  (j < length (index spy_df))%nat →
  ∃ out k a,
    implement_strategy spy_df vix_df strategy = (Ok tt, out)
    ∧ (k ≤ 36)%nat
    ∧ cell out "VIX Level" j = Some (of_nat k)
    ∧ cell out "SPY Allocation" j = Some a
    ∧ (strategy !! k = Some a ∨ (k = 0%nat ∧ a = of_Z 1)).
Proof.
  intros Hwf Hj.
  destruct (well_formed_returns _ _ _ Hwf) as (daily & adj & Hd & Ha & Hdl & Hal & Hrun).
  assert (is_Some (adj !! j)) as [v Hv] by (apply lookup_lt_is_Some; lia).
  pose proof (wf_table _ _ _ Hwf) as Hs.
  exists (simulated spy_df strategy daily adj).
  rewrite (cell_vix_level _ _ _ _ _ _ Hv), (cell_spy_allocation _ _ _ _ _ _ Hv).
  destruct (reading_cases v) as [Hge|[(k & Hk & ->)|[Hlt Hne]]].
  - assert (is_Some (strategy !! 36%nat)) as [a Ha36] by (apply lookup_lt_is_Some; lia).
    exists 36%nat, a. rewrite !cell_after_ge_36 by done.
    unfold alloc_pick. rewrite Ha36. repeat split; try done. by left.
  - assert (is_Some (strategy !! k)) as [a Hak] by (apply lookup_lt_is_Some; lia).
    exists k, a. rewrite !cell_after_exact by done.
    unfold alloc_pick. rewrite Hak. repeat split; try done; [lia | by left].
  - exists 0%nat, (of_Z 1). rewrite !cell_after_unmatched by done.
    repeat split; try done; [lia | by right].
Qed.

(** X6: two tables that agree on entry 36 and on every level below 36 that
    some reading equals give the same outcome and the same frame. *)
Theorem unused_levels_do_not_matter spy_df vix_df strategy strategy' adj :
  well_formed spy_df vix_df strategy →
  well_formed spy_df vix_df strategy' →
  columns vix_df !! "Adj Close" = Some adj →
  strategy !! 36%nat = strategy' !! 36%nat →
  (∀ k, (k < 36)%nat → of_nat k ∈ adj → strategy !! k = strategy' !! k) →
  implement_strategy spy_df vix_df strategy = implement_strategy spy_df vix_df strategy'.
Proof.
  intros Hwf Hwf' Hadj H36 Hused.
  destruct (well_formed_returns _ _ _ Hwf) as (daily & adj1 & Hd & Ha & _ & _ & Hrun).
  destruct (well_formed_returns _ _ _ Hwf') as (daily' & adj' & Hd' & Ha' & _ & _ & Hrun').
  assert (daily' = daily) as -> by congruence.
  assert (adj1 = adj) as -> by congruence.
  assert (adj' = adj) as -> by congruence.
  rewrite Hrun, Hrun'. f_equal.
  assert (∀ v i, v ∈ adj → i ∈ seq 0 37 → level_test i v = true →
            alloc_pick strategy i = alloc_pick strategy' i) as Hpick.
  { intros v i Hv Hi Ht. apply elem_of_seq in Hi. unfold alloc_pick.
    destruct (decide (i = 36)) as [->|Hne]; [by rewrite H36|].
    rewrite level_test_lt in Ht by lia. apply feqb_true in Ht. subst v.
    rewrite (Hused i) by (lia || done). done. }
  assert (spy_allocations strategy adj = spy_allocations strategy' adj) as EA.
  { unfold spy_allocations. apply map_ext_in. intros v Hv.
    apply cell_after_ext. intros i Hi Ht. apply (Hpick v); [|done..].
    by apply list_elem_of_In. }
  assert (sh_allocations strategy adj = sh_allocations strategy' adj) as EH.
  { unfold sh_allocations. apply map_ext_in. intros v Hv.
    apply cell_after_ext. intros i Hi Ht. unfold hedge_pick.
    rewrite (Hpick v); [done | by apply list_elem_of_In | done..]. }
  unfold simulated. by rewrite EA, EH.
Qed.

Lemma portfolio_unhedged daily (adj : list float) :
  length daily = length adj →
  portfolio_returns daily (map (λ _, of_Z 1) adj) (map (λ _, of_Z 0) adj) = daily.
Proof.
  unfold portfolio_returns. revert adj.
  induction daily as [|r daily IH]; intros [|v adj] Hlen; try discriminate; [done|].
  simpl. rewrite IH by (simpl in Hlen; lia). f_equal.
  destruct r as [r|]; [|done]. simpl. f_equal.
  rewrite Z2Qc_inj_1, Z2Qc_inj_0. ring.
Qed.

(** X7: under the table that holds 1.0 at every level the portfolio return
    column is the daily return column and the hedge allocation is 0 on every
    row. *)
Theorem fully_invested_table_is_unhedged spy_df vix_df daily :
  well_formed spy_df vix_df (replicate 37 (of_Z 1)) →
  columns spy_df !! "Daily Return" = Some daily →
  ∃ out, implement_strategy spy_df vix_df (replicate 37 (of_Z 1)) = (Ok tt, out)
    ∧ columns out !! "Portfolio Return" = Some daily
    ∧ columns out !! "SH Allocation" = Some (replicate (length daily) (of_Z 0)).
Proof.
  intros Hwf Hdaily.
  destruct (well_formed_returns _ _ _ Hwf) as (daily' & adj & Hd & Ha & Hdl & Hal & Hrun).
  assert (daily' = daily) as -> by congruence.
  assert (∀ i, i ∈ seq 0 37 → alloc_pick (replicate 37 (of_Z 1)) i = of_Z 1) as Hall.
  { intros i Hi. apply elem_of_seq in Hi. unfold alloc_pick.
    by rewrite lookup_replicate_2 by lia. }
  assert (spy_allocations (replicate 37 (of_Z 1)) adj = map (λ _, of_Z 1) adj) as EA.
  { unfold spy_allocations. apply map_ext. intros v. by apply cell_after_const. }
  assert (sh_allocations (replicate 37 (of_Z 1)) adj = map (λ _, of_Z 0) adj) as EH.
  { unfold sh_allocations. apply map_ext. intros v.
    rewrite (hedge_complement _ _ (of_Z 1)) by apply default_complement.
    rewrite cell_after_const by done. symmetry. apply default_complement. }
  eexists. split; [exact Hrun|].
  unfold simulated, with_allocations. cbn [columns]. rewrite EA, EH. split.
  - rewrite lookup_insert_eq. f_equal. apply portfolio_unhedged. lia.
  - rewrite !lookup_insert_ne by done. rewrite lookup_insert_eq.
    f_equal. rewrite <- replicate_as_map. f_equal. lia.
Qed.



Lemma Qc_of_nat_eq_0 n : Qc_of_Z (Z.of_nat n) = 0 → n = 0%nat.
Proof. rewrite <- Z2Qc_inj_0. intros H. apply Z2Qc_inj in H. lia. Qed.

Lemma years_eq_0 n : Qc_of_Z (Z.of_nat n) / Qc_of_Z 252 = 0 ↔ n = 0%nat.
Proof.
  split.
  - intros H. apply Qc_of_nat_eq_0.
    assert (Qc_of_Z 252 ≠ 0) as H252.
    { rewrite <- Z2Qc_inj_0. intros E. by apply Z2Qc_inj in E. }
    rewrite <- (Qcmult_div_r (Qc_of_Z (Z.of_nat n)) (Qc_of_Z 252)) by done.
    rewrite H. ring.
  - intros ->. by apply Qc_is_canon.
Qed.

Lemma annual_return_error_iff pow returns :
  calculate_annual_return pow returns = Raise ZeroDivisionError
  ↔ s_values returns = [].
Proof.
  unfold calculate_annual_return. split.
  - case_decide as E; [|done]. intros _. apply years_eq_0 in E.
    by apply nil_length_inv.
  - intros ->. cbn [length]. rewrite decide_True; [done|]. by apply years_eq_0.
Qed.


Lemma dropna_rows_nil idx vs :
  length idx = length vs →
  dropna_rows idx vs = [] ↔ Forall (λ v, v = NaN) vs.
Proof.
  revert vs. induction idx as [|d idx IH]; intros [|v vs] Hlen; try discriminate.
  - done.
  - simpl. destruct v as [q|]; simpl.
    + split; [done|]. intros H. by inversion H.
    + rewrite IH by (simpl in Hlen; lia). split.
      * intros H. by constructor.
      * intros H. by inversion H.
Qed.

Lemma cell_after_is_number {A} (P : A → Prop) (pick : nat → A) l init v :
  P init → (∀ i, i ∈ l → P (pick i)) → P (cell_after pick l init v).
Proof.
  revert init. induction l as [|i l IH]; intros init Hinit Hl; [done|].
  unfold cell_after. cbn [foldl]. apply IH.
  - destruct (level_test i v); [apply Hl; left | done].
  - intros j Hj. apply Hl. by right.
Qed.

Lemma portfolio_returns_all_NaN daily (adj : list float) (fa fh : float → float) :
  length daily = length adj →
  (∀ v, ∃ a, fa v = Fin a) → (∀ v, ∃ h, fh v = Fin h) →
  Forall (λ v, v = NaN) (portfolio_returns daily (map fa adj) (map fh adj))
  ↔ Forall (λ v, v = NaN) daily.
Proof.
  intros Hlen Ha Hh. unfold portfolio_returns. revert adj Hlen.
  induction daily as [|r daily IH]; intros [|v adj] Hlen; try discriminate; [done|].
  simpl. rewrite !Forall_cons, IH by (simpl in Hlen; lia).
  destruct (Ha v) as [a ->], (Hh v) as [h ->].
  destruct r; simpl; split; intros [? ?]; done.
Qed.

(** X9: on well-formed input and a table of numbers, the annual-return
    objective raises ZeroDivisionError exactly when every daily return is
    NaN, as it is for a history of one day. *)
Theorem annual_objective_needs_a_return pow spy_df vix_df strategy daily :
  well_formed spy_df vix_df strategy →
  Forall is_number strategy →
  columns spy_df !! "Daily Return" = Some daily →
  objective_function_annual_return pow strategy spy_df vix_df = Raise ZeroDivisionError
  ↔ Forall (λ r, r = NaN) daily.
Proof.
  intros Hwf Hnum Hdaily.
  destruct (well_formed_returns _ _ _ Hwf) as (daily' & adj & Hd & Ha & Hdl & Hal & Hrun).
  assert (daily' = daily) as -> by congruence.
  pose proof (wf_table _ _ _ Hwf) as Hs.
  unfold objective_function_annual_return, copy. rewrite Hrun.
  unfold getitem, simulated. cbn [columns index]. rewrite lookup_insert_eq.
  cbn [rbind Ok].
  set (pr := portfolio_returns _ _ _).
  assert (length pr = length (index spy_df)) as Hpr.
  { unfold pr, portfolio_returns, spy_allocations, sh_allocations.
    rewrite !length_zip_with, !length_map. lia. }
  assert (∀ i, i ∈ seq 0 37 → is_number (alloc_pick strategy i)) as Hpick.
  { intros i Hi. apply elem_of_seq in Hi. unfold alloc_pick.
    assert (is_Some (strategy !! i)) as [a Hai] by (apply lookup_lt_is_Some; lia).
    rewrite Hai. simpl. rewrite Forall_forall in Hnum. apply Hnum.
    by eapply list_elem_of_lookup_2. }
  assert (Forall (λ v, v = NaN) pr ↔ Forall (λ r, r = NaN) daily) as <-.
  { apply portfolio_returns_all_NaN.
    - lia.
    - intros v. apply (cell_after_is_number is_number); [by eexists | done].
    - intros v. apply (cell_after_is_number is_number); [by eexists|].
      intros i Hi. destruct (Hpick i Hi) as [a Ha']. unfold hedge_pick.
      rewrite Ha'. by eexists. }
  rewrite <- (dropna_rows_nil (index spy_df) pr) by done.
  assert (s_values (dropna (MkSeries (index spy_df) pr)) = []
          ↔ dropna_rows (index spy_df) pr = []) as <-.
  { unfold dropna. cbn [s_values s_index]. split.
    - apply fmap_nil_inv.
    - by intros ->. }
  rewrite <- (annual_return_error_iff pow).
  destruct (calculate_annual_return pow _) as [e|v]; simpl; unfold Ok, Raise;
    split; intros H; try discriminate H; exact H.
Qed.

(** ** Monthly returns *)

Lemma foldr_min_le m ms x : x ∈ m :: ms → (foldr Z.min m ms ≤ x)%Z.
Proof.
  induction ms as [|y ms IH]; intros Hx.
  - apply list_elem_of_singleton in Hx. subst. simpl. lia.
  - simpl. apply elem_of_cons in Hx as [->|Hx].
    + assert (foldr Z.min m ms ≤ m)%Z by (apply IH; left). lia.
    + apply elem_of_cons in Hx as [->|Hx]; [lia|].
      assert (foldr Z.min m ms ≤ x)%Z by (apply IH; by right). lia.
Qed.

Lemma foldr_max_ge m ms x : x ∈ m :: ms → (x ≤ foldr Z.max m ms)%Z.
Proof.
  induction ms as [|y ms IH]; intros Hx.
  - apply list_elem_of_singleton in Hx. subst. simpl. lia.
  - simpl. apply elem_of_cons in Hx as [->|Hx].
    + assert (m ≤ foldr Z.max m ms)%Z by (apply IH; left). lia.
    + apply elem_of_cons in Hx as [->|Hx]; [lia|].
      assert (x ≤ foldr Z.max m ms)%Z by (apply IH; by right). lia.
Qed.

Lemma month_range_covers (s : Series float) d :
  d ∈ s_index s → month_ordinal d ∈ month_range s.
Proof.
  intros Hd. unfold month_range.
  assert (month_ordinal d ∈ map month_ordinal (s_index s)) as Hin
    by (by apply list_elem_of_fmap_2).
  destruct (map month_ordinal (s_index s)) as [|m ms]; [by apply elem_of_nil in Hin|].
  pose proof (foldr_min_le m ms _ Hin). pose proof (foldr_max_ge m ms _ Hin).
  apply elem_of_seqZ. lia.
Qed.

Lemma month_range_NoDup (s : Series float) : NoDup (month_range s).
Proof.
  unfold month_range. destruct (map month_ordinal (s_index s)); [constructor|].
  apply NoDup_seqZ.
Qed.

Lemma list_sum_pointwise {A} (f g : A → nat) ks :
  list_sum (map (λ k, f k + g k)%nat ks)
  = (list_sum (map f ks) + list_sum (map g ks))%nat.
Proof. induction ks as [|k ks IH]; simpl; [done | rewrite IH; lia]. Qed.

Lemma list_sum_zeros {A} (ks : list A) : list_sum (map (λ _, 0%nat) ks) = 0%nat.
Proof. induction ks as [|k ks IH]; simpl; [done | by rewrite IH]. Qed.

Lemma list_sum_single (k0 : Z) ks :
  NoDup ks → k0 ∈ ks →
  list_sum (map (λ k, if decide (k0 = k) then 1%nat else 0%nat) ks) = 1%nat.
Proof.
  induction 1 as [|k ks Hk Hnd IH]; intros Hin; [by apply elem_of_nil in Hin|].
  simpl. apply elem_of_cons in Hin as [<-|Hin].
  - rewrite decide_True by done.
    replace (map (λ k, if decide (k0 = k) then 1%nat else 0%nat) ks)
      with (map (λ _ : Z, 0%nat) ks).
    + by rewrite list_sum_zeros.
    + apply map_ext_in. intros k Hk'. apply list_elem_of_In in Hk'.
      rewrite decide_False; [done|]. intros <-. done.
  - rewrite decide_False by (intros <-; done). by rewrite IH.
Qed.

(** Buckets by a key, one for each of the distinct keys [ks], hold every
    row once when every key is among [ks]. *)
Lemma buckets_hold_every_row {A} (key : A → Z) rows ks :
  NoDup ks → (∀ r, r ∈ rows → key r ∈ ks) →
  list_sum (map (λ k, length (filter (λ r, key r = k) rows)) ks) = length rows.
Proof.
  intros Hnd. induction rows as [|r rows IH]; intros Hin.
  - simpl. apply list_sum_zeros.
  - transitivity
      (list_sum (map (λ k, (if decide (key r = k) then 1 else 0)
                           + length (filter (λ r, key r = k) rows))%nat ks)).
    + f_equal. apply map_ext. intros k. rewrite filter_cons.
      by case_decide.
    + rewrite list_sum_pointwise, list_sum_single, IH; [done | | done |].
      * intros r' Hr'. apply Hin. by right.
      * apply Hin. left.
Qed.

Lemma month_bin_holds (s : Series float) j d v :
  s_index s !! j = Some d → s_values s !! j = Some v →
  v ∈ month_bin s (month_ordinal d).
Proof.
  intros Hd Hv. unfold month_bin.
  apply (list_elem_of_fmap_2' snd _ (d, v)); [|done].
  apply list_elem_of_filter. split; [done|].
  apply list_elem_of_lookup. exists j. by rewrite lookup_zip_with, Hd; simpl; rewrite Hv.
Qed.

(** X10: [calculate_monthly_returns] gives one value for a calendar month,
    no month twice and the month of every date among them; the value of a
    month is the compounded return of the rows of that month; and every row
    is in the month of its date, the months holding as many rows together
    as the frame has. *)
Theorem monthly_returns_partition_the_days df pr :
  columns df !! "Portfolio Return" = Some pr →
  length pr = length (index df) →
  ∃ monthly,
    calculate_monthly_returns df = Ok monthly
    ∧ NoDup monthly.*1
    ∧ (∀ k v, (k, v) ∈ monthly → v = compound (month_bin (MkSeries (index df) pr) k))
    ∧ (∀ j d v, index df !! j = Some d → pr !! j = Some v →
         month_ordinal d ∈ monthly.*1
         ∧ v ∈ month_bin (MkSeries (index df) pr) (month_ordinal d))
    ∧ list_sum (map (λ k, length (month_bin (MkSeries (index df) pr) k)) monthly.*1)
      = length pr.
Proof.
  intros Hpr Hlen. unfold calculate_monthly_returns, getitem. rewrite Hpr.
  eexists. split; [reflexivity|].
  set (s := MkSeries (index df) pr).
  assert ((map (λ k, (k, compound (month_bin s k))) (month_range s)).*1 = month_range s)
    as Hfst.
  { rewrite <- list_fmap_compose. apply list_fmap_id. }
  rewrite Hfst. split; [apply month_range_NoDup|]. split; [|split].
  - intros k v Hin. apply list_elem_of_fmap in Hin as (k' & [= -> ->] & _). done.
  - intros j d v Hd Hv. split.
    + apply month_range_covers. by eapply list_elem_of_lookup_2.
    + by apply (month_bin_holds s j).
  - unfold month_bin.
    transitivity (list_sum (map (λ k, length (filter (λ r : date * float, month_ordinal r.1 = k)
                                                 (zip (s_index s) (s_values s))))
                              (month_range s))).
    + f_equal. apply map_ext. intros k. by rewrite length_map.
    + rewrite buckets_hold_every_row.
      * rewrite length_zip_with. simpl. lia.
      * apply month_range_NoDup.
      * intros [d v] Hr. apply month_range_covers. simpl.
        by apply elem_of_zip_l in Hr.
Qed.

(** ** A history within one calendar month *)

Lemma foldr_min_const m ms : Forall (λ x, x = m) ms → foldr Z.min m ms = m.
Proof.
  induction 1 as [|x ms -> _ IH]; cbn [foldr]; [done | rewrite IH; apply Z.min_id].
Qed.

Lemma foldr_max_const m ms : Forall (λ x, x = m) ms → foldr Z.max m ms = m.
Proof.
  induction 1 as [|x ms -> _ IH]; cbn [foldr]; [done | rewrite IH; apply Z.max_id].
Qed.

Lemma resample_M_one_month (s : Series float) m :
  (∀ d, d ∈ s_index s → month_ordinal d = m) →
  (length (resample_M s) ≤ 1)%nat.
Proof.
  intros H. unfold resample_M.
  destruct (s_index s) as [|d ds] eqn:E; [simpl; lia|]. cbn [map].
  assert (month_ordinal d = m) as -> by (apply H; left).
  assert (Forall (λ x, x = m) (map month_ordinal ds)) as Hall.
  { apply Forall_forall. intros x Hx. apply list_elem_of_fmap in Hx as (d' & -> & Hd').
    apply H. by right. }
  rewrite foldr_min_const, foldr_max_const by done.
  replace (m - m + 1)%Z with 1%Z by lia. done.
Qed.

Lemma finite_values_length vs : (length (finite_values vs) ≤ length vs)%nat.
Proof.
  unfold finite_values. induction vs as [|v vs IH]; simpl; [lia|].
  destruct v; simpl; unfold omap in IH; lia.
Qed.

Lemma dropna_rows_dates idx vs r : r ∈ dropna_rows idx vs → r.1 ∈ idx.
Proof.
  revert vs. induction idx as [|d idx IH]; intros [|v vs] Hr; simpl in Hr;
    try by apply elem_of_nil in Hr.
  destruct (isna v).
  - right. by eapply IH.
  - apply elem_of_cons in Hr as [->|Hr]; [left | right; by eapply IH].
Qed.

(** X11: on well-formed input whose dates lie in one calendar month the
    monthly-volatility objective returns NaN. *)
Theorem one_month_history_has_no_volatility sqrt spy_df vix_df strategy m :
  well_formed spy_df vix_df strategy →
  (∀ d, d ∈ index spy_df → month_ordinal d = m) →
  objective_function_monthly_volatility sqrt strategy spy_df vix_df = Ok NaN.
Proof.
  intros Hwf Hm.
  destruct (well_formed_returns _ _ _ Hwf) as (daily & adj & Hd & Ha & Hdl & Hal & Hrun).
  unfold objective_function_monthly_volatility, copy. rewrite Hrun.
  unfold getitem, simulated. cbn [columns index]. rewrite lookup_insert_eq.
  cbn [rbind Ok]. f_equal.
  unfold calculate_monthly_volatility, series_std.
  rewrite decide_True; [done|].
  etransitivity; [apply finite_values_length|]. rewrite length_map.
  apply (resample_M_one_month _ m).
  intros d Hd'. unfold dropna in Hd'. cbn [s_index s_values] in Hd'.
  apply list_elem_of_fmap in Hd' as (r & -> & Hr).
  apply Hm. by eapply dropna_rows_dates.
Qed.

(** ** Daily returns *)

Lemma length_ffill_from last vs : length (ffill_from last vs) = length vs.
Proof. revert last. induction vs as [|v vs IH]; intros last; simpl; [done | by rewrite IH]. Qed.

Lemma length_pct_change_from prev vs : length (pct_change_from prev vs) = length vs.
Proof. revert prev. induction vs as [|v vs IH]; intros prev; simpl; [done | by rewrite IH]. Qed.

Lemma length_pct_change vs : length (pct_change vs) = length vs.
Proof.
  unfold pct_change, ffill. rewrite <- (length_ffill_from NaN vs).
  destruct (ffill_from NaN vs); simpl; [done|]. by rewrite length_pct_change_from.
Qed.

(** Forward fill leaves a number where it is. *)
Lemma ffill_from_lookup_number last vs i q :
  vs !! i = Some (Fin q) → ffill_from last vs !! i = Some (Fin q).
Proof.
  revert last i. induction vs as [|v vs IH]; intros last [|i] Hi; simpl in *; try done.
  - by injection Hi as ->.
  - by apply IH.
Qed.

(** From the second row on a return is formed from the value of its row
    and the value of the row before. *)
Lemma pct_change_from_lookup prev vs i a b :
  (prev :: vs) !! i = Some a → vs !! i = Some b →
  pct_change_from prev vs !! i = Some (fsub (fdiv b a) (of_Z 1)).
Proof.
  revert prev i. induction vs as [|v vs IH]; intros prev [|i] Ha Hb; simpl in *; try done.
  - by injection Ha as ->; injection Hb as ->.
  - by apply IH.
Qed.

Lemma pct_change_lookup vs i a b :
  ffill vs !! i = Some a → ffill vs !! S i = Some b →
  pct_change vs !! S i = Some (fsub (fdiv b a) (of_Z 1)).
Proof.
  unfold pct_change. destruct (ffill vs) as [|v vs']; [done|].
  intros Ha Hb. simpl. by apply pct_change_from_lookup.
Qed.

(** X12: where the frame has the price column, [calculate_daily_returns]
    writes a column 'Daily Return' of one value for each price and leaves
    the dates and the other columns as they are; the first return is NaN,
    and the return of a row whose price and the price of the row before are
    numbers, the latter not 0, is price / price before - 1. *)
Theorem daily_returns_row_by_row df column prices :
  columns df !! column = Some prices →
  ∃ out returns,
    calculate_daily_returns df column = Ok out
    ∧ index out = index df
    ∧ (∀ c, c ≠ "Daily Return" → columns out !! c = columns df !! c)
    ∧ columns out !! "Daily Return" = Some returns
    ∧ length returns = length prices
    ∧ (prices ≠ [] → returns !! 0%nat = Some NaN)
    ∧ (∀ i p q, prices !! i = Some (Fin p) → prices !! S i = Some (Fin q) → p ≠ 0 →
         returns !! S i = Some (Fin (q / p - 1))).
Proof.
  intros Hcol. unfold calculate_daily_returns, getitem. rewrite Hcol. cbn [rbind Ok].
  unfold setitem_series. cbn [s_index s_values]. rewrite decide_True by done.
  eexists _, _. split; [reflexivity|]. split; [done|]. cbn [columns].
  split; [by intros c Hc; rewrite lookup_insert_ne|].
  rewrite lookup_insert_eq. split; [reflexivity|].
  split; [apply length_pct_change|]. split.
  - intros Hne. unfold pct_change, ffill.
    destruct prices as [|p prices]; [done|]. reflexivity.
  - intros i p q Hp Hq Hp0.
    rewrite (pct_change_lookup prices i (Fin p) (Fin q))
      by (by apply ffill_from_lookup_number).
    unfold fdiv, fsub, fbin, of_Z. rewrite decide_False by done.
    by rewrite Z2Qc_inj_1.
Qed.

(** ** Data preparation *)

Lemma reindex_frame_index idx df : index (reindex_frame idx df) = idx.
Proof. unfold reindex_frame. by case_decide. Qed.

Lemma reindex_frame_ok idx df : frame_ok df → frame_ok (reindex_frame idx df).
Proof.
  intros Hok c col. unfold reindex_frame. case_decide as E.
  - intros H. by apply (Hok c).
  - cbn [columns index]. rewrite lookup_fmap.
    destruct (columns df !! c); simpl; [|done]. intros [= <-].
    unfold reindex. by rewrite length_map.
Qed.

Lemma reindex_frame_has idx df c :
  is_Some (columns df !! c) → is_Some (columns (reindex_frame idx df) !! c).
Proof.
  intros [col Hc]. unfold reindex_frame. case_decide; [by eexists|].
  cbn [columns]. rewrite lookup_fmap, Hc. by eexists.
Qed.

Lemma ffill_frame_ok df : frame_ok df → frame_ok (ffill_frame df).
Proof.
  intros Hok c col. unfold ffill_frame. cbn [columns index]. rewrite lookup_fmap.
  destruct (columns df !! c) as [col'|] eqn:E; simpl; [|done]. intros [= <-].
  unfold ffill. rewrite length_ffill_from. by apply (Hok c).
Qed.

Lemma ffill_frame_has df c :
  is_Some (columns df !! c) → is_Some (columns (ffill_frame df) !! c).
Proof.
  intros [col Hc]. unfold ffill_frame. cbn [columns]. rewrite lookup_fmap, Hc.
  by eexists.
Qed.

(** X13: from two loaded tables that each have their price column,
    [prepare_data] returns two frames on the joined index which meet the
    precondition of the simulator, so that the simulator returns on them. *)
Theorem prepare_data_establishes_alignment spy_loaded vix_loaded strategy :
  frame_ok spy_loaded → frame_ok vix_loaded →
  is_Some (columns spy_loaded !! "Adj Close") →
  is_Some (columns vix_loaded !! "Adj Close") →
  length strategy = 37%nat →
  ∃ spy_df vix_df out,
    prepare_data spy_loaded vix_loaded = Ok (spy_df, vix_df)
    ∧ index spy_df = join_inner (index spy_loaded) (index vix_loaded)
    ∧ index vix_df = index spy_df
    ∧ well_formed spy_df vix_df strategy
    ∧ implement_strategy spy_df vix_df strategy = (Ok tt, out).
Proof.
  intros Hspy Hvix Hsp Hvp Hs.
  set (idx := join_inner (index spy_loaded) (index vix_loaded)).
  set (spy1 := ffill_frame (reindex_frame idx spy_loaded)).
  set (vix1 := ffill_frame (reindex_frame idx vix_loaded)).
  assert (index spy1 = idx) as Hi1 by apply reindex_frame_index.
  assert (index vix1 = idx) as Hi2 by apply reindex_frame_index.
  assert (frame_ok spy1) as Hok1 by (by apply ffill_frame_ok, reindex_frame_ok).
  assert (frame_ok vix1) as Hok2 by (by apply ffill_frame_ok, reindex_frame_ok).
  assert (is_Some (columns spy1 !! "Adj Close")) as [prices Hprices]
    by (by apply ffill_frame_has, reindex_frame_has).
  assert (is_Some (columns vix1 !! "Adj Close")) as [adj Hadj]
    by (by apply ffill_frame_has, reindex_frame_has).
  set (spy2 := setitem_series "Daily Return"
                 (MkSeries (index spy1) (pct_change prices)) spy1).
  assert (prepare_data spy_loaded vix_loaded = Ok (spy2, vix1)) as Hrun.
  { unfold prepare_data, align_inner. fold idx. fold spy1 vix1.
    unfold calculate_daily_returns, getitem. by rewrite Hprices. }
  assert (well_formed spy2 vix1 strategy) as Hwf.
  { split.
    - by rewrite Hi2.
    - exists (pct_change prices). unfold spy2, setitem_series.
      cbn [s_index s_values columns index]. rewrite decide_True by done.
      rewrite lookup_insert_eq. split; [done|].
      rewrite length_pct_change. by apply (Hok1 "Adj Close").
    - exists adj. split; [done|]. by apply (Hok2 "Adj Close").
    - done. }
  destruct (well_formed_returns _ _ _ Hwf) as (daily & adj' & _ & _ & _ & _ & Hsim).
  exists spy2, vix1, (simulated spy2 strategy daily adj').
  split; [exact Hrun|]. split; [exact Hi1|]. split; [by rewrite Hi2|].
  split; [exact Hwf | exact Hsim].
Qed.

(** ** Forward fill *)

Lemma ffill_from_idempotent last vs :
  ffill_from last (ffill_from last vs) = ffill_from last vs.
Proof.
  revert last. induction vs as [|v vs IH]; intros last; [done|].
  cbn [ffill_from]. destruct v as [q|]; cbn [isna].
  - by rewrite IH.
  - destruct last as [q|]; cbn [isna]; by rewrite IH.
Qed.

Lemma ffill_from_number q vs : Forall is_number (ffill_from (Fin q) vs).
Proof.
  revert q. induction vs as [|v vs IH]; intros q; [constructor|].
  cbn [ffill_from]. destruct v as [q'|]; cbn [isna]; constructor;
    try (by eexists); apply IH.
Qed.

(** X14: forward filling keeps the length and every number in place, is
    idempotent, and leaves no NaN after a number. *)
Theorem ffill_leaves_no_gap vs :
  length (ffill vs) = length vs
  ∧ ffill (ffill vs) = ffill vs
  ∧ (∀ i q, vs !! i = Some (Fin q) → ffill vs !! i = Some (Fin q))
  ∧ (∀ i j q, (i ≤ j < length vs)%nat → ffill vs !! i = Some (Fin q) →
       ∃ q', ffill vs !! j = Some (Fin q')).
Proof.
  unfold ffill. split; [apply length_ffill_from|].
  split; [apply ffill_from_idempotent|]. split.
  - generalize NaN. induction vs as [|v vs IH]; intros last i q Hi; [done|].
    destruct i as [|i]; simpl in *.
    + by injection Hi as ->.
    + by apply IH.
  - generalize NaN. induction vs as [|v vs IH]; intros last i j q Hij Hi;
      [simpl in Hij; lia|].
    cbn [ffill_from] in *. destruct i as [|i].
    + simpl in Hi. injection Hi as Hi. rewrite Hi.
      destruct j as [|j]; [by eexists|]. simpl.
      assert (is_Some (ffill_from (Fin q) vs !! j)) as [w Hw].
      { apply lookup_lt_is_Some. rewrite length_ffill_from. simpl in Hij. lia. }
      pose proof (ffill_from_number q vs) as Hnum.
      rewrite Forall_forall in Hnum.
      destruct (Hnum w) as [q' ->]; [by eapply list_elem_of_lookup_2|]. by eexists.
    + destruct j as [|j]; [lia|]. simpl in *.
      eapply IH; [|done]. lia.
Qed.

(** ** A converged run *)

Lemma csv_files_allocations (g : nat → nat) (strategy : list float) :
  csv_files (imap (λ level allocation,
                     PrintAllocation (g level) allocation (fsub (of_Z 1) allocation))
               strategy) = [].
Proof.
  revert g. induction strategy as [|a strategy IH]; intros g; [done|].
  cbn [imap]. unfold csv_files. cbn [omap list_omap].
  apply (IH (g ∘ S)).
Qed.

Lemma csv_files_print_allocations strategy es :
  csv_files (print_allocations strategy ++ es) = csv_files es.
Proof.
  unfold csv_files at 1. rewrite omap_app.
  change (csv_files (print_allocations strategy) ++ csv_files es = csv_files es).
  unfold print_allocations. by rewrite (csv_files_allocations (λ n, n)).
Qed.

Lemma csv_files_Print text es : csv_files (Print text :: es) = csv_files es.
Proof. done. Qed.

Lemma simulate_well_formed spy_df vix_df strategy :
  well_formed spy_df vix_df strategy →
  ∃ daily adj,
    columns spy_df !! "Daily Return" = Some daily
    ∧ implement_strategy spy_df vix_df strategy
      = (Ok tt, simulated spy_df strategy daily adj)
    ∧ simulate spy_df vix_df strategy = Ok (simulated spy_df strategy daily adj).
Proof.
  intros Hwf.
  destruct (well_formed_returns _ _ _ Hwf) as (daily & adj & Hd & _ & _ & _ & Hrun).
  exists daily, adj. split; [done|]. split; [done|].
  unfold simulate, copy. by rewrite Hrun.
Qed.

(** X15: when both optimisations converge on well-formed frames, [main]
    reaches the end of its report, the log of the Sharpe ratio, without
    raising, and has then written exactly three files, in order the frame
    simulated under the annual-return table, the frame simulated under the
    volatility table and the volatility frame as it was. *)
Theorem converged_run_writes_the_simulations
    pow sqrt minimize spy_df vix_df initial_strategy r1 r2 prices :
  optimize_annual_return pow minimize spy_df vix_df initial_strategy = Ok r1 →
  OptimizeResult.success r1 = true →
  optimize_monthly_volatility sqrt minimize spy_df vix_df initial_strategy = Ok r2 →
  OptimizeResult.success r2 = true →
  well_formed spy_df vix_df (OptimizeResult.x r1) →
  well_formed spy_df vix_df (OptimizeResult.x r2) →
  columns spy_df !! "Adj Close" = Some prices →
  ∃ es out1 out2,
    main pow sqrt minimize spy_df vix_df initial_strategy = (es, Ok tt)
    ∧ implement_strategy spy_df vix_df (OptimizeResult.x r1) = (Ok tt, out1)
    ∧ implement_strategy spy_df vix_df (OptimizeResult.x r2) = (Ok tt, out2)
    ∧ csv_files es = [("prepared_SPY_annual.csv", out1);
                      ("prepared_SPY_monthly_volatility.csv", out2);
                      ("prepared_VIX.csv", vix_df)].
Proof.
  intros H1 S1 H2 S2 Hwf1 Hwf2 Hprices.
  destruct (simulate_well_formed _ _ _ Hwf1) as (daily & adj1 & Hd & Hrun1 & Hsim1).
  destruct (simulate_well_formed _ _ _ Hwf2) as (daily' & adj2 & _ & Hrun2 & Hsim2).
  set (out1 := simulated spy_df (OptimizeResult.x r1) daily adj1) in *.
  set (out2 := simulated spy_df (OptimizeResult.x r2) daily' adj2) in *.
  assert (∃ shown, select_columns out1
            ["Adj Close"; "Daily Return"; "SPY Allocation"; "SH Allocation";
             "Portfolio Return"] = Ok shown) as [shown Hshown].
  { unfold select_columns, getitem, out1, simulated, with_allocations. cbn [columns].
    rewrite !lookup_insert_eq.
    rewrite !(lookup_insert_ne _ _ "Adj Close") by done.
    rewrite !(lookup_insert_ne _ _ "Daily Return") by done.
    rewrite !(lookup_insert_ne _ _ "SPY Allocation") by done.
    rewrite !(lookup_insert_ne _ _ "SH Allocation") by done.
    rewrite !lookup_insert_eq, Hprices, Hd. cbn [rbind Ok s_values]. by eexists. }
  assert (∃ pr, getitem out1 "Portfolio Return" = Ok pr) as [pr Hpr].
  { unfold getitem, out1, simulated. cbn [columns]. rewrite lookup_insert_eq.
    by eexists. }
  eexists _, out1, out2.
  split; [|split; [exact Hrun1|split; [exact Hrun2|]]].
  - unfold main, report, eval, emit, emit_all, mbind, W_bind.
    rewrite H1. cbn [Ok]. rewrite S1. cbn [negb].
    rewrite H2. cbn [Ok]. rewrite S2. cbn [negb].
    rewrite Hsim1, Hsim2. cbn [Ok]. rewrite Hshown. cbn [Ok]. rewrite Hpr.
    cbn [Ok app]. reflexivity.
  - cbn [app].
    rewrite csv_files_Print, csv_files_print_allocations,
      csv_files_Print, csv_files_print_allocations. reflexivity.
Qed.

(** ** Size of a hedged return *)

Lemma exposure_in_unit_interval (a : Qc) :
  Qc_of_Z 0 ≤ a → a ≤ Qc_of_Z 1 → Qcabs (Qc_of_Z 2 * a - Qc_of_Z 1) ≤ 1.
Proof.
  intros H0 H1. apply Qcabs_Qcle_condition.
  split; unfold Qcle, Qcminus, Qcplus, Qcmult, Qcopp, Q2Qc, Qc_of_Z in *;
    cbn [this] in *; rewrite ?Qred_correct in *;
    destruct a as [q Hq]; cbn [this] in *; unfold inject_Z in *; lra.
Qed.

Lemma hedged_return_bound (r a : Qc) :
  Qc_of_Z 0 ≤ a → a ≤ Qc_of_Z 1 →
  Qcabs (r * (Qc_of_Z 2 * a - Qc_of_Z 1)) ≤ Qcabs r.
Proof.
  intros H0 H1. rewrite Qcabs_Qcmult.
  rewrite <- (Qcmult_1_r (Qcabs r)) at 2.
  rewrite !(Qcmult_comm (Qcabs r)).
  apply Qcmult_le_compat_r; [by apply exposure_in_unit_interval | apply Qcabs_nonneg].
Qed.

(** X16: with every table entry between 0 and 1, the portfolio return of a
    day is in absolute value at most the daily return of that day. *)
Theorem hedged_return_is_no_larger spy_df vix_df strategy :
  well_formed spy_df vix_df strategy →
  Forall is_fraction strategy →
  ∃ out, implement_strategy spy_df vix_df strategy = (Ok tt, out)
    ∧ ∀ j r, cell spy_df "Daily Return" j = Some (Fin r) →
        ∃ p, cell out "Portfolio Return" j = Some (Fin p)
             ∧ Qcabs p ≤ Qcabs r.
Proof.
  intros Hwf Hfrac.
  destruct (well_formed_returns _ _ _ Hwf) as (daily & adj & Hd & Ha & Hdl & Hal & Hrun).
  pose proof (wf_table _ _ _ Hwf) as Hs.
  eexists. split; [exact Hrun|]. intros j r Hr.
  apply cell_Some_inv in Hr as (col & Hcol & Hj).
  assert (col = daily) as -> by congruence.
  assert (is_Some (adj !! j)) as [v Hv].
  { apply lookup_lt_is_Some. apply lookup_lt_Some in Hj. lia. }
  rewrite (cell_portfolio_return _ _ _ _ _ _ _ Hv Hj).
  rewrite (hedge_complement strategy _ (of_Z 1) (of_Z 0)) by apply default_complement.
  rewrite exposure_identity.
  assert (is_fraction (cell_after (alloc_pick strategy) (seq 0 37) (of_Z 1) v)) as Hfr.
  { apply (cell_after_is_number is_fraction).
    - split; simpl; [by rewrite <- Z2Qc_inj_le | apply Qcle_refl].
    - intros i Hi. apply elem_of_seq in Hi. unfold alloc_pick.
      assert (is_Some (strategy !! i)) as [a Hai] by (apply lookup_lt_is_Some; lia).
      rewrite Hai. simpl. rewrite Forall_forall in Hfrac. apply Hfrac.
      by eapply list_elem_of_lookup_2. }
  destruct (cell_after (alloc_pick strategy) (seq 0 37) (of_Z 1) v) as [a|];
    [|by destruct Hfr].
  destruct Hfr as [H0 H1]. simpl in H0, H1.
  eexists. split; [reflexivity|]. by apply hedged_return_bound.
Qed.

(** ** Entries of the table beyond the 37th *)

(** X17: entries of the table beyond the 37th are never read: the call gives
    the same frame as on the first 37 entries. *)
Theorem longer_table_is_cut spy_df vix_df strategy adj daily :
  index vix_df = index spy_df →
  columns vix_df !! "Adj Close" = Some adj →
  length adj = length (index vix_df) →
  columns spy_df !! "Daily Return" = Some daily →
  (37 ≤ length strategy)%nat →
  ∃ out, implement_strategy spy_df vix_df strategy = (Ok tt, out)
    ∧ implement_strategy spy_df vix_df (take 37 strategy) = (Ok tt, out).
Proof.
  intros Hidx Hadj Hlen Hd Hs.
  assert (seen_readings (index spy_df) (MkSeries (index vix_df) adj) = Some adj) as Hseen
    by (rewrite Hidx; apply seen_readings_same_index).
  assert (length adj = length (index spy_df)) as Hrows by congruence.
  rewrite (implement_strategy_returns _ _ _ _ _ _ Hadj Hseen Hrows Hd Hs).
  rewrite (implement_strategy_returns spy_df vix_df (take 37 strategy) _ _ _
             Hadj Hseen Hrows Hd) by (rewrite length_take; lia).
  eexists. split; [reflexivity|]. apply (f_equal (pair (Ok tt))). unfold simulated.
  assert (∀ i, i ∈ seq 0 37 → alloc_pick (take 37 strategy) i = alloc_pick strategy i)
    as Hpick.
  { intros i Hi. apply elem_of_seq in Hi. unfold alloc_pick.
    by rewrite lookup_take_lt by lia. }
  assert (spy_allocations (take 37 strategy) adj = spy_allocations strategy adj) as ->.
  { unfold spy_allocations. apply map_ext. intros v. apply cell_after_ext.
    intros i Hi _. by apply Hpick. }
  assert (sh_allocations (take 37 strategy) adj = sh_allocations strategy adj) as ->.
  { unfold sh_allocations. apply map_ext. intros v. apply cell_after_ext.
    intros i Hi _. unfold hedge_pick. by rewrite Hpick. }
  done.
Qed.

(** ** A day without a reading *)

(** X18: on well-formed input a day whose reading is NaN keeps the default
    allocation (1.0, 0.0) and the label 0, and its portfolio return is its
    daily return. *)
Theorem missing_reading_keeps_default spy_df vix_df strategy j :
  well_formed spy_df vix_df strategy →
  cell vix_df "Adj Close" j = Some NaN →
  ∃ out r, implement_strategy spy_df vix_df strategy = (Ok tt, out)
    ∧ cell spy_df "Daily Return" j = Some r
    ∧ cell out "SPY Allocation" j = Some (of_Z 1)
    ∧ cell out "SH Allocation" j = Some (of_Z 0)
    ∧ cell out "VIX Level" j = Some (of_Z 0)
    ∧ cell out "Portfolio Return" j = Some r.
Proof.
  intros Hwf Hv.
  destruct (well_formed_returns _ _ _ Hwf) as (daily & adj & Hd & Ha & Hdl & Hal & Hrun).
  apply cell_Some_inv in Hv as (col & Hcol & Hj).
  assert (col = adj) as -> by congruence.
  assert (is_Some (daily !! j)) as [r Hr].
  { apply lookup_lt_is_Some. apply lookup_lt_Some in Hj. lia. }
  exists (simulated spy_df strategy daily adj), r.
  rewrite (cell_vix_level _ _ _ _ _ _ Hj), (cell_spy_allocation _ _ _ _ _ _ Hj),
    (cell_sh_allocation _ _ _ _ _ _ Hj), (cell_portfolio_return _ _ _ _ _ _ _ Hj Hr).
  rewrite !cell_after_unmatched by done.
  split; [exact Hrun|]. split; [unfold cell; by rewrite Hd|].
  repeat split. f_equal. destruct r as [r|]; [|done]. simpl. f_equal.
  rewrite Z2Qc_inj_1, Z2Qc_inj_0. ring.
Qed.

(** ** Instances of the further properties *)

Lemma nonzero_by_numerator (q : Qc) : Qnum (this q) ≠ 0%Z → q ≠ 0.
Proof. intros H ->. by apply H. Qed.

Lemma frame_ok_singleton idx c col :
  length col = length idx → frame_ok (MkFrame idx {[ c := col ]}).
Proof.
  intros Hlen c' col' H. cbn [columns index] in *.
  apply lookup_singleton_Some in H as [_ <-]. done.
Qed.

Lemma short_table_raises_IndexError_witness :
  implement_strategy Scenario.spy_df Scenario.vix_df [dec 5 10]%list
  = (Raise IndexError,
     MkFrame (index Scenario.spy_df)
       (with_allocations
          (map (cell_after (alloc_pick [dec 5 10]%list) (seq 0 1) (of_Z 1))
             [of_Z 5; of_Z 40; of_Z 5])
          (map (cell_after (hedge_pick [dec 5 10]%list) (seq 0 1) (of_Z 0))
             [of_Z 5; of_Z 40; of_Z 5])
          (map (cell_after level_pick (seq 0 1) (of_Z 0)) [of_Z 5; of_Z 40; of_Z 5])
          (columns Scenario.spy_df))).
Proof.
  apply (short_table_raises_IndexError Scenario.spy_df Scenario.vix_df [dec 5 10]%list
           [of_Z 5; of_Z 40; of_Z 5] eq_refl eq_refl eq_refl).
  simpl. lia.
Defined.

Lemma missing_readings_column_witness :
  implement_strategy Scenario.spy_df Scenario.spy_df Scenario.table
  = (Raise (KeyError "Adj Close"), with_defaults Scenario.spy_df).
Proof.
  exact (missing_readings_column Scenario.spy_df Scenario.spy_df Scenario.table eq_refl).
Defined.

Lemma missing_returns_column_witness :
  implement_strategy Scenario.vix_df Scenario.vix_df Scenario.table
  = (Raise (KeyError "Daily Return"),
     MkFrame Scenario.days
       (with_allocations
          (spy_allocations Scenario.table [of_Z 5; of_Z 40; of_Z 5])
          (sh_allocations Scenario.table [of_Z 5; of_Z 40; of_Z 5])
          (vix_levels [of_Z 5; of_Z 40; of_Z 5]) (columns Scenario.vix_df))).
Proof.
  apply (missing_returns_column Scenario.vix_df Scenario.vix_df Scenario.table
           [of_Z 5; of_Z 40; of_Z 5] eq_refl eq_refl eq_refl).
  - simpl. lia.
  - reflexivity.
Defined.

Lemma simulation_keeps_the_rest_witness :
  ∃ out, implement_strategy Instances.spy_priced Scenario.vix_df Scenario.table
         = (Ok tt, out)
    ∧ index out = Scenario.days
    ∧ (∀ c, c ∉ written_columns → columns out !! c = columns Instances.spy_priced !! c)
    ∧ (∀ c, c ∈ written_columns → ∃ col, columns out !! c = Some col ∧ length col = 3%nat).
Proof.
  exact (simulation_keeps_the_rest Instances.spy_priced Scenario.vix_df Scenario.table
           Scenario_wf_priced).
Defined.

Lemma level_and_allocation_agree_witness :
  ∃ out k a,
    implement_strategy Scenario.spy_df5 Scenario.vix_df5 Scenario.table = (Ok tt, out)
    ∧ (k ≤ 36)%nat
    ∧ cell out "VIX Level" 3 = Some (of_nat k)
    ∧ cell out "SPY Allocation" 3 = Some a
    ∧ (Scenario.table !! k = Some a ∨ (k = 0%nat ∧ a = of_Z 1)).
Proof.
  apply (level_and_allocation_agree Scenario.spy_df5 Scenario.vix_df5 Scenario.table 3
           Scenario_wf5).
  simpl. lia.
Defined.

Lemma Scenario_wf_other :
  well_formed Scenario.spy_df Scenario.vix_df History.other_table.
Proof. split; [done | by eexists | by eexists | done]. Qed.

Lemma unused_levels_do_not_matter_witness :
  implement_strategy Scenario.spy_df Scenario.vix_df Scenario.table
  = implement_strategy Scenario.spy_df Scenario.vix_df History.other_table.
Proof.
  apply (unused_levels_do_not_matter Scenario.spy_df Scenario.vix_df Scenario.table
           History.other_table [of_Z 5; of_Z 40; of_Z 5]
           Scenario_wf Scenario_wf_other eq_refl eq_refl).
  intros k Hk Hin. rewrite !elem_of_cons, elem_of_nil in Hin.
  destruct Hin as [H|[H|[H|[]]]].
  - apply (of_nat_inj k 5) in H. by subst.
  - apply (of_nat_inj k 40) in H. lia.
  - apply (of_nat_inj k 5) in H. by subst.
Defined.

Lemma Scenario_wf_ones :
  well_formed Scenario.spy_df Scenario.vix_df (replicate 37 (of_Z 1)).
Proof. split; [done | by eexists | by eexists | done]. Qed.

Lemma fully_invested_table_is_unhedged_witness :
  ∃ out, implement_strategy Scenario.spy_df Scenario.vix_df (replicate 37 (of_Z 1))
         = (Ok tt, out)
    ∧ columns out !! "Portfolio Return" = Some [dec 1 100; dec (-1) 100; dec 2 100]
    ∧ columns out !! "SH Allocation" = Some (replicate 3 (of_Z 0)).
Proof.
  exact (fully_invested_table_is_unhedged Scenario.spy_df Scenario.vix_df
           [dec 1 100; dec (-1) 100; dec 2 100] Scenario_wf_ones eq_refl).
Defined.

Lemma History_wf_first_day :
  well_formed History.first_day_spy History.first_day_vix (replicate 37 (dec 5 10)).
Proof. split; [done | by eexists | by eexists | done]. Qed.

Lemma flat_table_is_numbers : Forall is_number (replicate 37 (dec 5 10)).
Proof. apply Forall_replicate. by eexists. Qed.

Lemma annual_objective_needs_a_return_witness :
  objective_function_annual_return Instances.pow_on_integers
    (replicate 37 (dec 5 10)) History.first_day_spy History.first_day_vix
  = Raise ZeroDivisionError.
Proof.
  apply (annual_objective_needs_a_return Instances.pow_on_integers
           History.first_day_spy History.first_day_vix (replicate 37 (dec 5 10)) [NaN]%list
           History_wf_first_day flat_table_is_numbers eq_refl).
  by repeat constructor.
Defined.

Lemma monthly_returns_partition_the_days_witness :
  ∃ monthly,
    calculate_monthly_returns History.two_months = Ok monthly
    ∧ monthly.*1 = [(2024 * 12)%Z; (2024 * 12 + 1)%Z]
    ∧ month_bin (MkSeries (index History.two_months)
                   [NaN; dec 1 100; dec (-2) 100; dec 3 100]) (2024 * 12 + 1)
      = [dec (-2) 100; dec 3 100]
    ∧ list_sum (map (λ k, length (month_bin (MkSeries (index History.two_months)
                                               [NaN; dec 1 100; dec (-2) 100; dec 3 100]) k))
                  monthly.*1) = 4%nat.
Proof.
  destruct (monthly_returns_partition_the_days History.two_months
              [NaN; dec 1 100; dec (-2) 100; dec 3 100] eq_refl eq_refl)
    as (monthly & Hrun & _ & _ & _ & Hsum).
  exists monthly. split; [exact Hrun|].
  assert (monthly.*1 = [(2024 * 12)%Z; (2024 * 12 + 1)%Z]) as Hmonths.
  { injection Hrun as <-. reflexivity. }
  split; [exact Hmonths|]. split; [reflexivity|]. exact Hsum.
Defined.

Lemma one_month_history_has_no_volatility_witness :
  objective_function_monthly_volatility Instances.sqrt_on_squares
    Scenario.table Scenario.spy_df Scenario.vix_df = Ok NaN.
Proof.
  apply (one_month_history_has_no_volatility Instances.sqrt_on_squares
           Scenario.spy_df Scenario.vix_df Scenario.table (2024 * 12) Scenario_wf).
  intros d Hd. unfold Scenario.spy_df, Scenario.days in Hd. cbn [index] in Hd.
  rewrite !elem_of_cons, elem_of_nil in Hd.
  destruct Hd as [->|[->|[->|[]]]]; reflexivity.
Defined.

Lemma daily_returns_row_by_row_witness :
  ∃ out returns,
    calculate_daily_returns Instances.spy_priced "Adj Close" = Ok out
    ∧ columns out !! "Daily Return" = Some returns
    ∧ length returns = 3%nat
    ∧ returns !! 0%nat = Some NaN
    ∧ returns !! 1%nat = Some (dec (-1) 100).
Proof.
  destruct (daily_returns_row_by_row Instances.spy_priced "Adj Close"
              [of_Z 470; dec 4653 10; dec 47461 100] eq_refl)
    as (out & returns & Hrun & _ & _ & Hcol & Hlen & Hfirst & Hrow).
  exists out, returns. split; [exact Hrun|]. split; [exact Hcol|].
  split; [exact Hlen|]. split; [by apply Hfirst|].
  rewrite (Hrow 0%nat (Qc_of_Z 470) (Q2Qc (4653 # 10)) eq_refl eq_refl)
    by (apply nonzero_by_numerator; by vm_compute).
  apply (f_equal Some). by apply Fin_eq.
Defined.

Lemma prepare_data_establishes_alignment_witness :
  ∃ spy_df vix_df out,
    prepare_data History.spy_loaded History.vix_loaded = Ok (spy_df, vix_df)
    ∧ index spy_df = [Date 2024 1 2; Date 2024 1 3; Date 2024 1 5]
    ∧ index vix_df = index spy_df
    ∧ well_formed spy_df vix_df Scenario.table
    ∧ implement_strategy spy_df vix_df Scenario.table = (Ok tt, out).
Proof.
  apply (prepare_data_establishes_alignment History.spy_loaded History.vix_loaded
           Scenario.table).
  - by apply frame_ok_singleton.
  - by apply frame_ok_singleton.
  - by eexists.
  - by eexists.
  - reflexivity.
Defined.

Lemma Scenario_wf_clipped :
  well_formed Instances.spy_priced Scenario.vix_df
    (zip_with Instances.clip Scenario.table (make_bounds Scenario.table)).
Proof. split; [done | by eexists | by eexists | done]. Qed.

Lemma converged_run_writes_the_simulations_witness :
  ∃ es out1 out2,
    main Instances.pow_on_integers Instances.sqrt_on_squares Instances.clips
      Instances.spy_priced Scenario.vix_df Scenario.table = (es, Ok tt)
    ∧ implement_strategy Instances.spy_priced Scenario.vix_df
        (zip_with Instances.clip Scenario.table (make_bounds Scenario.table))
      = (Ok tt, out1)
    ∧ implement_strategy Instances.spy_priced Scenario.vix_df
        (zip_with Instances.clip Scenario.table (make_bounds Scenario.table))
      = (Ok tt, out2)
    ∧ csv_files es = [("prepared_SPY_annual.csv", out1);
                      ("prepared_SPY_monthly_volatility.csv", out2);
                      ("prepared_VIX.csv", Scenario.vix_df)].
Proof.
  exact (converged_run_writes_the_simulations
           Instances.pow_on_integers Instances.sqrt_on_squares Instances.clips
           Instances.spy_priced Scenario.vix_df Scenario.table
           (OptimizeResult.Make
              (zip_with Instances.clip Scenario.table (make_bounds Scenario.table))
              true "Optimization terminated successfully")
           (OptimizeResult.Make
              (zip_with Instances.clip Scenario.table (make_bounds Scenario.table))
              true "Optimization terminated successfully")
           [of_Z 470; dec 4653 10; dec 47461 100]
           eq_refl eq_refl eq_refl eq_refl Scenario_wf_clipped Scenario_wf_clipped eq_refl).
Defined.

Lemma flat_table_is_fractions : Forall is_fraction (replicate 37 (dec 5 10)).
Proof. apply Forall_replicate. split; by vm_compute. Qed.

Lemma hedged_return_is_no_larger_witness :
  ∃ out, implement_strategy Scenario.spy_df Scenario.vix_df (replicate 37 (dec 5 10))
         = (Ok tt, out)
    ∧ ∀ j r, cell Scenario.spy_df "Daily Return" j = Some (Fin r) →
        ∃ p, cell out "Portfolio Return" j = Some (Fin p) ∧ Qcabs p ≤ Qcabs r.
Proof.
  exact (hedged_return_is_no_larger Scenario.spy_df Scenario.vix_df
           (replicate 37 (dec 5 10)) Scenario_wf_flat flat_table_is_fractions).
Defined.

Lemma longer_table_is_cut_witness :
  ∃ out, implement_strategy Scenario.spy_df Scenario.vix_df History.long_table
         = (Ok tt, out)
    ∧ implement_strategy Scenario.spy_df Scenario.vix_df (take 37 History.long_table)
      = (Ok tt, out).
Proof.
  apply (longer_table_is_cut Scenario.spy_df Scenario.vix_df History.long_table
           [of_Z 5; of_Z 40; of_Z 5] [dec 1 100; dec (-1) 100; dec 2 100]
           eq_refl eq_refl eq_refl eq_refl).
  simpl. lia.
Defined.

Lemma History_wf_gap : well_formed Scenario.spy_df History.vix_gap Scenario.table.
Proof. split; [done | by eexists | by eexists | done]. Qed.

Lemma missing_reading_keeps_default_witness :
  ∃ out r, implement_strategy Scenario.spy_df History.vix_gap Scenario.table = (Ok tt, out)
    ∧ cell Scenario.spy_df "Daily Return" 0 = Some r
    ∧ cell out "SPY Allocation" 0 = Some (of_Z 1)
    ∧ cell out "SH Allocation" 0 = Some (of_Z 0)
    ∧ cell out "VIX Level" 0 = Some (of_Z 0)
    ∧ cell out "Portfolio Return" 0 = Some r.
Proof.
  exact (missing_reading_keeps_default Scenario.spy_df History.vix_gap Scenario.table 0
           History_wf_gap eq_refl).
Defined.
